(** * Grompt: the instruction builder, the client call and the interactive form

    A shallow embedding of [Grompt.py], [prompt_canvas.py] and
    [streamlit_app.py].  Python values are modelled as follows.

    - A [str] is the list of its Unicode code points ([N]); the literals of
      the source are ASCII and are written with [lit].
    - [None] where the source allows it is [option]'s [None].
    - An exception is its class name together with [str(e)].
    - The provider ([pocketgroq.GroqProvider]) is a library outside the
      repository: its constructor and its [generate] method are arguments of
      the model, and every call to them is recorded in a trace. *)

From Stdlib Require Import List NArith ZArith QArith Ascii String Bool.
From Stdlib Require Import Lia.
Import ListNotations.

Open Scope N_scope.
Open Scope list_scope.

(** ** Python's strings *)

Module Py.

Definition str := list N.

(** An ASCII literal of the source, as code points. *)
Definition lit (s : string) : str :=
  List.map N_of_ascii (list_ascii_of_string s).

Definition nl : str := [10].          (* chr(10), the line feed *)
Definition dquote : str := [34].      (* the double quote character *)

(** [str.isspace] on one code point: the table of CPython's
    [_PyUnicode_IsWhitespace]. *)
Definition isspace (c : N) : bool :=
  ((9 <=? c) && (c <=? 13)) || ((28 <=? c) && (c <=? 32))
  || (c =? 133) || (c =? 160) || (c =? 5760)
  || ((8192 <=? c) && (c <=? 8202))
  || (c =? 8232) || (c =? 8233) || (c =? 8239) || (c =? 8287)
  || (c =? 12288).

Fixpoint lstrip (s : str) : str :=
  match s with
  | [] => []
  | c :: t => if isspace c then lstrip t else s
  end.

Definition rstrip (s : str) : str := rev (lstrip (rev s)).

(** [s.strip()] *)
Definition strip (s : str) : str := rstrip (lstrip s).

(** [s.split(sep)] for a separator of one character: never the empty list. *)
Fixpoint split (sep : N) (s : str) : list str :=
  match s with
  | [] => [[]]
  | c :: t =>
      if c =? sep then [] :: split sep t
      else match split sep t with
           | l :: ls => (c :: l) :: ls
           | [] => [[c]]
           end
  end.

(** [sep.join(xs)] *)
Fixpoint join (sep : str) (xs : list str) : str :=
  match xs with
  | [] => []
  | x :: rest =>
      match rest with
      | [] => x
      | _ :: _ => x ++ sep ++ join sep rest
      end
  end.

(** Truth value of a [str]: the empty string is false. *)
Definition truthy (s : str) : bool :=
  match s with [] => false | _ :: _ => true end.


(** What an f-string writes for a value that is a [str] or [None]. *)
Definition format (v : option str) : str :=
  match v with
  | Some s => s
  | None => lit "None"
  end.

(** An exception: the name of its class and [str(e)].  The exceptions of
    the model are those the handlers of the source catch, the instances of
    [Exception]; an interrupt of the interpreter is not among them. *)
Record exn : Type := mkExn { exn_class : string; exn_str : str }.

Definition Exception (message : str) : exn := mkExn "Exception" message.
Definition TypeError (message : str) : exn := mkExn "TypeError" message.

Definition result (A : Type) : Type := (exn + A)%type.

End Py.

Import Py.

(** ** prompt_canvas.py *)

Module prompt_canvas.

(** The dataclass [PromptCanvas]: eight fields, none with a default. *)
Record PromptCanvas : Type := mkPromptCanvas {
  persona : str;
  audience : str;
  task : str;
  steps : list str;
  context : str;
  references : list str;
  output_format : str;
  tonality : str
}.

End prompt_canvas.

(** ** The provider library and the effects of a run *)

Module pocketgroq.

(** The keyword arguments of [groq.generate(...)]. *)
Record Request : Type := mkRequest {
  req_prompt : str;
  req_model : str;
  req_temperature : Q;
  req_max_tokens : Z
}.

(** A constructed provider object: its [generate] method returns the
    generated text or raises. *)
Record GroqProvider : Type := mkGroqProvider {
  generate : Request -> result str
}.

(** The class itself: [GroqProvider()] reads the credential from the
    process environment and returns an object or raises. *)
Definition GroqProvider_class : Type := option str -> result GroqProvider.

End pocketgroq.

Module Run.

Import pocketgroq.

(** What a run does that can be observed from outside. *)
Inductive event : Type :=
| EvNewProvider (credential : option str)
| EvGenerate (request : Request)
| EvPrint (line : str)
| EvStError (text : str)
| EvStWarning (text : str)
| EvStSubheader (text : str)
| EvStWrite (text : str)
| EvStStop.

(** The process state: the variable GROQ_API_KEY of [os.environ] and the
    events so far, oldest first. *)
Record world : Type := mkWorld {
  environ_GROQ_API_KEY : option str;
  trace : list event
}.

(** Computations that read and write the world and may raise. *)
Definition M (A : Type) : Type := world -> world * result A.

Definition ret {A} (a : A) : M A := fun w => (w, inr a).

Definition raise {A} (e : exn) : M A := fun w => (w, inl e).

Definition bind {A B} (m : M A) (k : A -> M B) : M B :=
  fun w =>
    match m w with
    | (w', inr a) => k a w'
    | (w', inl e) => (w', inl e)
    end.

(** [try: body except Exception as e: handler(e)] *)
Definition try_except {A} (body : M A) (handler : exn -> M A) : M A :=
  fun w =>
    match body w with
    | (w', inr a) => (w', inr a)
    | (w', inl e) => handler e w'
    end.

Definition emit (e : event) : M unit :=
  fun w => (mkWorld (environ_GROQ_API_KEY w) (trace w ++ [e]), inr tt).

Definition getenv_GROQ_API_KEY : M (option str) :=
  fun w => (w, inr (environ_GROQ_API_KEY w)).

(** [os.environ['GROQ_API_KEY'] = value] *)
Definition setenv_GROQ_API_KEY (value : str) : M unit :=
  fun w => (mkWorld (Some value) (trace w), inr tt).

Definition lift {A} (r : result A) : M A := fun w => (w, r).

(** [GroqProvider()]: one constructor call, recorded with the credential
    it finds. *)
Definition new_GroqProvider (cls : GroqProvider_class) : M GroqProvider :=
  bind getenv_GROQ_API_KEY (fun key =>
  bind (emit (EvNewProvider key)) (fun _ =>
  lift (cls key))).

(** [groq.generate(prompt=..., model=..., temperature=..., max_tokens=...)]:
    one request, recorded with its arguments. *)
Definition call_generate (groq : GroqProvider) (request : Request) : M str :=
  bind (emit (EvGenerate request)) (fun _ =>
  lift (generate groq request)).

(** A fresh process. *)
Definition start (credential : option str) : world := mkWorld credential [].

(** The requests of a trace, in order. *)
Fixpoint generate_calls (t : list event) : list Request :=
  match t with
  | [] => []
  | EvGenerate r :: t' => r :: generate_calls t'
  | _ :: t' => generate_calls t'
  end.

End Run.

Declare Scope run_scope.
Delimit Scope run_scope with run.
Notation "x <- m ;; k" := (Run.bind m (fun x => k))
  (at level 61, m at next level, right associativity) : run_scope.
Notation "m ;;; k" := (Run.bind m (fun _ => k))
  (at level 61, right associativity) : run_scope.

(** ** Grompt.py *)

Module Grompt.

Import prompt_canvas.

Definition get_rephrased_user_prompt (prompt : option str) : str :=
  lit "You are a professional prompt engineer. Optimize this prompt by making it clearer, more concise, and more effective."
  ++ nl ++
  lit "    User request: " ++ dquote ++ format prompt ++ dquote
  ++ nl ++
  lit "    Rephrased:".

(** One bullet of the steps section: [f'- {step}']. *)
Definition bullet (step : str) : str := lit "- " ++ step.

(** The body of the steps section:
    [chr(10).join(f'- {step}' for step in canvas.steps)]. *)
Definition steps_body (canvas : PromptCanvas) : str :=
  join nl (List.map bullet (steps canvas)).

(** The references line: [', '.join(canvas.references)]. *)
Definition references_line (canvas : PromptCanvas) : str :=
  join (lit ", ") (references canvas).

(** The role-setting sentence that opens the canvas template. *)
Definition role_sentence (canvas : PromptCanvas) : str :=
  lit "You are a " ++ persona canvas
  ++ lit " focused on delivering results for " ++ audience canvas ++ lit ".".

(** The canvas template.  An instance of a dataclass is always true in
    [if canvas:] (the class defines neither [__bool__] nor [__len__]), so
    the test only separates [None] from an instance. *)
Definition craft_system_message
    (canvas : option PromptCanvas) (prompt : option str) : str :=
  match canvas with
  | Some canvas =>
      role_sentence canvas
      ++ nl ++ nl ++
      lit "Task: " ++ task canvas
      ++ nl ++ nl ++
      lit "Step-by-Step Approach:"
      ++ nl ++
      steps_body canvas
      ++ nl ++ nl ++
      lit "Context: " ++ context canvas
      ++ nl ++ nl ++
      lit "References: " ++ references_line canvas
      ++ nl ++ nl ++
      lit "Output Requirements:"
      ++ nl ++
      lit "- Format: " ++ output_format canvas
      ++ nl ++
      lit "- Tone: " ++ tonality canvas
  | None => get_rephrased_user_prompt prompt
  end.

Import pocketgroq Run.
Local Open Scope run_scope.

(** The message of the wrapped error. *)
Definition wrapped_message (description : str) : str :=
  lit "Prompt engineering error: " ++ description.

(** The body of [rephrase_prompt], for a template that has been evaluated
    or has raised: the whole body stands in the [try], the construction of
    the provider included, and the template is evaluated after it. *)
Definition rephrase_prompt_body (cls : GroqProvider_class)
    (template : result str) (model : str) (temperature : Q) (max_tokens : Z)
    : M str :=
  try_except
    (groq <- new_GroqProvider cls ;;
     system_message <- lift template ;;
     response <- call_generate groq
                   (mkRequest system_message model temperature max_tokens) ;;
     ret (strip response))
    (fun e => raise (Exception (wrapped_message (exn_str e)))).

Definition rephrase_prompt (cls : GroqProvider_class)
    (prompt : option str) (model : str) (temperature : Q) (max_tokens : Z)
    (canvas : option PromptCanvas) : M str :=
  rephrase_prompt_body cls (inr (craft_system_message canvas prompt))
    model temperature max_tokens.

(** [main], after [argparse] has read the command line. *)
Definition main (cls : GroqProvider_class)
    (prompt : str) (model : str) (temperature : Q) (max_tokens : Z) : M unit :=
  try_except
    (rephrased <- rephrase_prompt cls (Some prompt) model temperature
                    max_tokens None ;;
     emit (EvPrint (lit "Rephrased prompt:")) ;;;
     emit (EvPrint rephrased))
    (fun e => emit (EvPrint (lit "Error: " ++ exn_str e))).



End Grompt.

(** ** streamlit_app.py *)

Module streamlit_app.

Import pocketgroq Run.
Local Open Scope run_scope.

(** The dataclass [PromptCanvas] of this file: the same eight fields, each
    with a default.  The two list fields default to [None], so they hold a
    list or [None]. *)
Record PromptCanvas : Type := mkPromptCanvas {
  persona : str;
  audience : str;
  task : str;
  steps : option (list str);
  context : str;
  references : option (list str);
  output_format : str;
  tonality : str
}.

(** The generated [__init__]: a keyword that is not supplied ([None] here)
    takes the default of its field. *)
Definition PromptCanvas_init
    (persona audience task : option str) (steps : option (list str))
    (context : option str) (references : option (list str))
    (output_format tonality : option str) : PromptCanvas :=
  mkPromptCanvas
    (match persona with Some v => v | None => [] end)
    (match audience with Some v => v | None => [] end)
    (match task with Some v => v | None => [] end)
    (match steps with Some v => Some v | None => None end)
    (match context with Some v => v | None => [] end)
    (match references with Some v => Some v | None => None end)
    (match output_format with Some v => v | None => [] end)
    (match tonality with Some v => v | None => [] end).

(** Grompt reads the attributes of the instance it is given by name.  The
    template iterates over [steps] and hands [references] to [join], in
    that order: [None] in either raises [TypeError]. *)
Definition read_attributes (c : PromptCanvas)
    : result prompt_canvas.PromptCanvas :=
  match steps c with
  | None => inl (TypeError (lit "'NoneType' object is not iterable"))
  | Some the_steps =>
      match references c with
      | None => inl (TypeError (lit "can only join an iterable"))
      | Some the_references =>
          inr (prompt_canvas.mkPromptCanvas (persona c) (audience c) (task c)
                 the_steps (context c) the_references
                 (output_format c) (tonality c))
      end
  end.

(** [Grompt.craft_system_message(canvas, prompt)] on an instance of this
    class. *)
Definition craft_system_message_on (c : PromptCanvas) (prompt : option str)
    : result str :=
  match read_attributes c with
  | inl e => inl e
  | inr c' => inr (Grompt.craft_system_message (Some c') prompt)
  end.

(** [Grompt.rephrase_prompt(prompt, model, temperature, max_tokens,
    canvas=canvas)] on an instance of this class. *)
Definition rephrase_prompt_on (cls : GroqProvider_class)
    (prompt : option str) (model : str) (temperature : Q) (max_tokens : Z)
    (canvas : PromptCanvas) : M str :=
  Grompt.rephrase_prompt_body cls (craft_system_message_on canvas prompt)
    model temperature max_tokens.

(** [[s.strip() for s in text.split('\n') if s.strip()]] *)
Definition stripped_lines (text : str) : list str :=
  List.map strip
    (List.filter (fun s => truthy (strip s)) (split 10 text)).

(** The values of the widgets when the button is pressed. *)
Record Form : Type := mkForm {
  user_prompt : str;
  f_persona : str;
  f_audience : str;
  f_task : str;
  f_steps : str;
  f_context : str;
  f_references : str;
  f_output_format : str;
  f_tonality : str;
  canvas_prompt : str;
  f_model : str;
  f_temperature : Q;
  f_max_tokens : Z
}.

(** The instance the advanced mode builds from the form. *)
Definition canvas_of_form (f : Form) : PromptCanvas :=
  PromptCanvas_init
    (Some (f_persona f)) (Some (f_audience f)) (Some (f_task f))
    (Some (stripped_lines (f_steps f)))
    (Some (f_context f))
    (Some (stripped_lines (f_references f)))
    (Some (f_output_format f)) (Some (f_tonality f)).

(** [st.stop()] ends the run of the script. *)
Definition st_stop {A} : M A :=
  emit EvStStop ;;; raise (mkExn "StopException" []).

(** The block under [if st.button("Optimize Prompt"):].  [GROQ_API_KEY] is
    the value read from the secrets; [import_Grompt] is the outcome of
    loading [Grompt.py], which binds the provider class. *)
Definition on_optimize (GROQ_API_KEY : str)
    (import_Grompt : result GroqProvider_class) (f : Form) : M unit :=
  if negb (truthy GROQ_API_KEY) then
    emit (EvStError (lit "Please enter your GROQ API Key in the sidebar."))
  else if truthy (user_prompt f) || truthy (canvas_prompt f) then
    setenv_GROQ_API_KEY GROQ_API_KEY ;;;
    cls <- try_except (lift import_Grompt)
             (fun e =>
                emit (EvStError (lit "Unable to import 'Grompt': " ++ exn_str e)) ;;;
                st_stop) ;;
    optimized_prompt <-
      (if truthy (canvas_prompt f) then
         let canvas := canvas_of_form f in
         rephrase_prompt_on cls (Some (canvas_prompt f)) (f_model f)
           (f_temperature f) (f_max_tokens f) canvas
       else
         Grompt.rephrase_prompt cls (Some (user_prompt f)) (f_model f)
           (f_temperature f) (f_max_tokens f) None) ;;
    if truthy optimized_prompt then
      emit (EvStSubheader (lit "Optimized Prompt:")) ;;;
      emit (EvStWrite optimized_prompt)
    else ret tt
  else
    emit (EvStWarning (lit "Please enter a prompt to optimize.")).

End streamlit_app.

(** ** The layout of a Python source file

    Python compiles a module as a whole before it runs its first statement.
    This is the part of that compilation that works line by line: string
    literals and comments are skipped, brackets are matched, and the
    indentation of every logical line is compared with the stack of open
    blocks.  A line may be indented further than the one before only after
    a line that ends with a colon. *)

Module Layout.

Local Open Scope char_scope.

Definition double_quote : ascii := "034".
Definition single_quote : ascii := "039".
Definition backslash : ascii := "092".
Definition tab : ascii := "009".
Definition form_feed : ascii := "012".

(** A line of a source file from its pieces between double quotes. *)
Definition quoted (pieces : list string) : string :=
  String.concat (String double_quote EmptyString) pieces.

Inductive error : Type :=
| UnexpectedIndent
| ExpectedIndentedBlock
| UnindentMismatch
| UnmatchedClosing (c : ascii)
| MismatchedClosing (c opening : ascii)
| NeverClosed (opening : ascii)
| UnterminatedString.

(** Where the scanner is: in code, or in a string literal opened by the
    quote [q].  [Opened] has read one quote and [Opened2] two, which is
    the empty literal or the start of a triple quote; [LongEnd1] and
    [LongEnd2] have read one and two quotes inside a triple-quoted
    literal. *)
Inductive mode : Type :=
| Code
| Opened (q : ascii)
| Opened2 (q : ascii)
| Short (q : ascii)
| ShortEsc (q : ascii)
| Long (q : ascii)
| LongEsc (q : ascii)
| LongEnd1 (q : ascii)
| LongEnd2 (q : ascii).

Definition is_code (m : mode) : bool :=
  match m with Code => true | _ => false end.

Definition is_blank_char (c : ascii) : bool :=
  (c =? " ") || (c =? tab) || (c =? form_feed).

Definition is_quote (c : ascii) : bool :=
  (c =? double_quote) || (c =? single_quote).

Definition is_opening (c : ascii) : bool :=
  (c =? "(") || (c =? "[") || (c =? "{").

Definition is_closing (c : ascii) : bool :=
  (c =? ")") || (c =? "]") || (c =? "}").

Definition closes (opening c : ascii) : bool :=
  ((opening =? "(") && (c =? ")"))
  || ((opening =? "[") && (c =? "]"))
  || ((opening =? "{") && (c =? "}")).

(** One character of code: the mode, the open brackets (innermost first)
    and the last character that is not blank, afterwards. *)
Definition code_step (c : ascii) (open : list ascii) (last : option ascii)
    : error + (mode * list ascii * option ascii) :=
  if is_blank_char c then inr (Code, open, last)
  else if is_quote c then inr (Opened c, open, Some c)
  else if is_opening c then inr (Code, c :: open, Some c)
  else if is_closing c then
    match open with
    | [] => inl (UnmatchedClosing c)
    | opening :: outer =>
        if closes opening c then inr (Code, outer, Some c)
        else inl (MismatchedClosing c opening)
    end
  else inr (Code, open, Some c).

(** One physical line, from the state the line before left. *)
Fixpoint scan (s : string) (m : mode) (open : list ascii)
    (last : option ascii) : error + (mode * list ascii * option ascii) :=
  match s with
  | EmptyString =>
      match m with
      | Code | Opened2 _ => inr (Code, open, last)
      | Opened _ | Short _ => inl UnterminatedString
      | ShortEsc q => inr (Short q, open, last)
      | Long q | LongEsc q | LongEnd1 q | LongEnd2 q => inr (Long q, open, last)
      end
  | String c rest =>
      let in_code :=
        if c =? "#" then inr (Code, open, last)
        else match code_step c open last with
             | inl e => inl e
             | inr (m', open', last') => scan rest m' open' last'
             end in
      match m with
      | Code => in_code
      | Opened q =>
          if c =? q then scan rest (Opened2 q) open last
          else if c =? backslash then scan rest (ShortEsc q) open last
          else scan rest (Short q) open last
      | Opened2 q =>
          if c =? q then scan rest (Long q) open last else in_code
      | Short q =>
          if c =? q then scan rest Code open last
          else if c =? backslash then scan rest (ShortEsc q) open last
          else scan rest (Short q) open last
      | ShortEsc q => scan rest (Short q) open last
      | Long q =>
          if c =? backslash then scan rest (LongEsc q) open last
          else if c =? q then scan rest (LongEnd1 q) open last
          else scan rest (Long q) open last
      | LongEsc q => scan rest (Long q) open last
      | LongEnd1 q =>
          if c =? q then scan rest (LongEnd2 q) open last
          else if c =? backslash then scan rest (LongEsc q) open last
          else scan rest (Long q) open last
      | LongEnd2 q =>
          if c =? q then scan rest Code open last
          else if c =? backslash then scan rest (LongEsc q) open last
          else scan rest (Long q) open last
      end
  end.

(** The column at which a line starts: a tab moves to the next multiple
    of eight. *)
Fixpoint indentation (s : string) (column : nat) : nat :=
  match s with
  | EmptyString => column
  | String c rest =>
      if c =? " " then indentation rest (S column)
      else if c =? tab then indentation rest ((column / 8 + 1) * 8)%nat
      else if c =? form_feed then indentation rest 0%nat
      else column
  end.

(** A line with nothing on it, or only a comment. *)
Fixpoint blank (s : string) : bool :=
  match s with
  | EmptyString => true
  | String c rest => if is_blank_char c then blank rest else c =? "#"
  end.

(** The state between two physical lines.  [indents] is the stack of open
    blocks, innermost first, without the level 0 below them. *)
Record state : Type := mkState {
  indents : list nat;
  open_brackets : list ascii;
  lexmode : mode;
  last_char : option ascii
}.

Definition initial : state := mkState [] [] Code None.

Definition ends_with_char (st : state) (c : ascii) : bool :=
  match last_char st with
  | Some d => d =? c
  | None => false
  end.

(** The next physical line continues the logical line: a bracket or a
    string literal is open, or the line ended with a backslash. *)
Definition continuing (st : state) : bool :=
  negb (is_code (lexmode st))
  || match open_brackets st with [] => false | _ :: _ => true end
  || ends_with_char st backslash.

(** The last logical line opened a block. *)
Definition block_due (st : state) : bool :=
  negb (continuing st) && ends_with_char st ":".

(** Close blocks down to [column]. *)
Fixpoint dedent (column : nat) (stack : list nat) : option (list nat) :=
  match stack with
  | [] => if (column =? 0)%nat then Some [] else None
  | top :: below =>
      if (column =? top)%nat then Some stack
      else if (top <? column)%nat then None
      else dedent column below
  end.

(** The indentation of a new logical line against the open blocks. *)
Definition begin_line (column : nat) (st : state) : error + list nat :=
  let top := List.hd 0%nat (indents st) in
  if block_due st then
    if (top <? column)%nat then inr (column :: indents st)
    else inl ExpectedIndentedBlock
  else if (top <? column)%nat then inl UnexpectedIndent
  else match dedent column (indents st) with
       | Some stack => inr stack
       | None => inl UnindentMismatch
       end.

Definition step (line : string) (st : state) : error + state :=
  if continuing st then
    match scan line (lexmode st) (open_brackets st) (last_char st) with
    | inl e => inl e
    | inr (m, open, last) => inr (mkState (indents st) open m last)
    end
  else if blank line then inr st
  else
    match begin_line (indentation line 0) st with
    | inl e => inl e
    | inr stack =>
        match scan line Code [] None with
        | inl e => inl e
        | inr (m, open, last) => inr (mkState stack open m last)
        end
    end.

(** The first error of a file, with the number of its line. *)
Fixpoint check_from (n : nat) (lines : list string) (st : state)
    : option (nat * error) :=
  match lines with
  | [] =>
      if negb (is_code (lexmode st)) then Some (n, UnterminatedString)
      else match open_brackets st with
           | opening :: _ => Some (n, NeverClosed opening)
           | [] => if block_due st then Some (n, ExpectedIndentedBlock)
                   else None
           end
  | line :: rest =>
      match step line st with
      | inl e => Some (n, e)
      | inr st' => check_from (S n) rest st'
      end
  end.

Definition check (lines : list string) : option (nat * error) :=
  check_from 1 lines initial.

(** The exception Python raises for an error. *)
Definition to_exn (e : error) : exn :=
  match e with
  | UnexpectedIndent => mkExn "IndentationError" (lit "unexpected indent")
  | ExpectedIndentedBlock =>
      mkExn "IndentationError" (lit "expected an indented block")
  | UnindentMismatch =>
      mkExn "IndentationError"
        (lit "unindent does not match any outer indentation level")
  | UnmatchedClosing _ => mkExn "SyntaxError" (lit "unmatched closing bracket")
  | MismatchedClosing _ _ =>
      mkExn "SyntaxError" (lit "closing bracket does not match the opening one")
  | NeverClosed _ => mkExn "SyntaxError" (lit "bracket was never closed")
  | UnterminatedString => mkExn "SyntaxError" (lit "unterminated string literal")
  end.

(** Running a module: its source is compiled first, and its statements
    run only when that succeeds. *)
Definition exec_module {A} (source : list string) (statements : Run.M A)
    : Run.M A :=
  match check source with
  | Some (_, e) => Run.raise (to_exn e)
  | None => statements
  end.

(** A file without one of its lines (numbered from 1). *)
Fixpoint without_line (n : nat) (lines : list string) : list string :=
  match lines, n with
  | [], _ => []
  | line :: rest, O => line :: rest
  | _ :: rest, S O => rest
  | line :: rest, S n' => line :: without_line n' rest
  end.

End Layout.

(** ** The text of the source files

    Each file line by line.  A line that holds double quotes is given cut at
    them: [quoted] puts the quotes back. *)

Module Sources.

Import Layout.
Local Open Scope string_scope.

Definition prompt_canvas_py : list string :=
  [ "from dataclasses import dataclass";
    "from typing import List";
    EmptyString;
    "@dataclass";
    "class PromptCanvas:";
    "    persona: str";
    "    audience: str";
    "    task: str";
    "    steps: List[str]";
    "    context: str";
    "    references: List[str]";
    "    output_format: str";
    "    tonality: str" ].

Definition Grompt_py : list string :=
  [ "import argparse";
    "import os";
    "from dotenv import load_dotenv";
    "from pocketgroq import GroqProvider";
    "from typing import Optional";
    "from prompt_canvas import PromptCanvas";
    EmptyString;
    "load_dotenv()";
    EmptyString;
    "DEFAULT_MODEL = os.getenv('GROMPT_DEFAULT_MODEL', 'llama-3.3-70b-versatile')";
    "DEFAULT_TEMPERATURE = float(os.getenv('GROMPT_DEFAULT_TEMPERATURE', '0.5'))";
    "DEFAULT_MAX_TOKENS = int(os.getenv('GROMPT_DEFAULT_MAX_TOKENS', '1024'))";
    EmptyString;
    quoted ["def craft_system_message(canvas: Optional[PromptCanvas] = None, prompt: str = "; EmptyString; ") -> str:"];
    "    if canvas:";
    quoted ["        return f"; EmptyString; EmptyString; "You are a {canvas.persona} focused on delivering results for {canvas.audience}."];
    EmptyString;
    "Task: {canvas.task}";
    EmptyString;
    "Step-by-Step Approach:";
    "{chr(10).join(f'- {step}' for step in canvas.steps)}";
    EmptyString;
    "Context: {canvas.context}";
    EmptyString;
    "References: {', '.join(canvas.references)}";
    EmptyString;
    "Output Requirements:";
    "- Format: {canvas.output_format}";
    quoted ["- Tone: {canvas.tonality}"; EmptyString; EmptyString; EmptyString];
    "    else:";
    "        return get_rephrased_user_prompt(prompt)";
    EmptyString;
    "def get_rephrased_user_prompt(prompt: str) -> str:";
    quoted ["    return f"; EmptyString; EmptyString; "You are a professional prompt engineer. Optimize this prompt by making it clearer, more concise, and more effective."];
    quoted ["    User request: "; "{prompt}"; EmptyString];
    quoted ["    Rephrased:"; EmptyString; EmptyString; EmptyString];
    EmptyString;
    "def rephrase_prompt(prompt: str, ";
    "                   model: str = DEFAULT_MODEL,";
    "                   temperature: float = DEFAULT_TEMPERATURE, ";
    "                   max_tokens: int = DEFAULT_MAX_TOKENS,";
    "                   canvas: Optional[PromptCanvas] = None) -> str:";
    "    try:";
    "        groq = GroqProvider()";
    "        system_message = craft_system_message(canvas, prompt)";
    "        ";
    "        response = groq.generate(";
    "            prompt=system_message,";
    "            model=model,";
    "            temperature=temperature,";
    "            max_tokens=max_tokens,";
    "        )";
    "        ";
    "        return response.strip()";
    "    except Exception as e:";
    quoted ["        raise Exception(f"; "Prompt engineering error: {str(e)}"; ")"];
    EmptyString;
    "def main():";
    quoted ["    parser = argparse.ArgumentParser(description="; "Rephrase prompts using Groq LLM."; ")"];
    quoted ["    parser.add_argument("; "prompt"; ", help="; "The prompt to rephrase"; ")"];
    quoted ["    parser.add_argument("; "--model"; ", default=DEFAULT_MODEL)"];
    quoted ["    parser.add_argument("; "--temperature"; ", type=float, default=DEFAULT_TEMPERATURE)"];
    quoted ["    parser.add_argument("; "--max_tokens"; ", type=int, default=DEFAULT_MAX_TOKENS)"];
    "    ";
    "    args = parser.parse_args()";
    "    ";
    "    try:";
    "        rephrased = rephrase_prompt(args.prompt, args.model, args.temperature, args.max_tokens)";
    quoted ["        print("; "Rephrased prompt:"; ")"];
    "        print(rephrased)";
    "    except Exception as e:";
    quoted ["        print(f"; "Error: {str(e)}"; ")"];
    EmptyString;
    quoted ["if __name__ == "; "__main__"; ":"];
    "    main()" ].

Definition streamlit_app_py : list string :=
  [ "import streamlit as st";
    "import os";
    "import sys";
    "import importlib.util";
    "from dotenv import load_dotenv";
    "from dataclasses import dataclass";
    "from typing import List";
    EmptyString;
    "load_dotenv()";
    EmptyString;
    "@dataclass";
    "class PromptCanvas:";
    quoted ["    persona: str = "; EmptyString; EmptyString];
    quoted ["    audience: str = "; EmptyString; EmptyString];
    quoted ["    task: str = "; EmptyString; EmptyString];
    "    steps: List[str] = None";
    quoted ["    context: str = "; EmptyString; EmptyString];
    "    references: List[str] = None";
    quoted ["    output_format: str = "; EmptyString; EmptyString];
    quoted ["    tonality: str = "; EmptyString; EmptyString];
    EmptyString;
    "def import_module_from_path(module_name, file_path):";
    "    spec = importlib.util.spec_from_file_location(module_name, file_path)";
    "    module = importlib.util.module_from_spec(spec)";
    "    spec.loader.exec_module(module)";
    "    return module";
    EmptyString;
    "DEFAULT_MODEL = os.getenv('GROMPT_DEFAULT_MODEL', 'llama-3.3-70b-versatile')";
    "DEFAULT_TEMPERATURE = float(os.getenv('GROMPT_DEFAULT_TEMPERATURE', '0.5'))";
    "DEFAULT_MAX_TOKENS = int(os.getenv('GROMPT_DEFAULT_MAX_TOKENS', '1024'))";
    EmptyString;
    quoted ["st.sidebar.title("; "Configuration"; ")"];
    quoted ["GROQ_API_KEY = st.secrets["; "groq_api_key"; "]  # Access the API key using the lowercase key"];
    EmptyString;
    "if GROQ_API_KEY:";
    quoted ["    st.sidebar.success("; "API key loaded successfully."; ")"];
    quoted ["    st.sidebar.info("; "API key loaded from Streamlit secrets."; ")"];
    "else:";
    quoted ["    st.sidebar.warning("; "Please enter your GROQ API Key to use the app."; ")"];
    EmptyString;
    quoted ["st.title("; "🚀 Grompt - Prompt Optimizer"; ")"];
    quoted ["    page_icon="; "logo.png"; "  # Update with the path to your favicon"];
    ")";
    EmptyString;
    quoted ["st.write("; "Grompt uses Groq's LLM services to instantly optimize prompts."; ")"];
    EmptyString;
    "# Add tabs for Basic and Advanced modes";
    quoted ["tab1, tab2 = st.tabs(["; "Basic"; ", "; "Advanced (Prompt Canvas)"; "])"];
    EmptyString;
    "with tab1:";
    quoted ["    user_prompt = st.text_area("; "Enter your prompt:"; ", height=100)"];
    EmptyString;
    "with tab2:";
    quoted ["    with st.expander("; "Persona & Audience"; ", expanded=True):"];
    "        col1, col2 = st.columns(2)";
    "        with col1:";
    quoted ["            persona = st.text_input("; "Persona/Role"; ", placeholder="; "e.g., expert technical writer"; ")"];
    "        with col2:";
    quoted ["            audience = st.text_input("; "Target Audience"; ", placeholder="; "e.g., software developers"; ")"];
    "    ";
    quoted ["    task = st.text_area("; "Task/Intent"; ", placeholder="; "Describe the specific task..."; ")"];
    quoted ["    steps = st.text_area("; "Steps"; ", placeholder="; "Enter steps, one per line..."; ")"];
    quoted ["    context = st.text_area("; "Context"; ", placeholder="; "Provide relevant background..."; ")"];
    quoted ["    references = st.text_area("; "References"; ", placeholder="; "Enter references, one per line..."; ")"];
    "    ";
    quoted ["    with st.expander("; "Output Format & Tone"; ", expanded=True):"];
    "        col1, col2 = st.columns(2)";
    "        with col1:";
    quoted ["            output_format = st.selectbox("; "Output Format"; ", "];
    quoted ["                ["; "Natural Text"; ", "; "Technical Documentation"; ", "; "Code"; ", "; "Markdown"; "])"];
    "        with col2:";
    quoted ["            tonality = st.text_input("; "Tone"; ", placeholder="; "e.g., professional, technical"; ")"];
    "    ";
    quoted ["    canvas_prompt = st.text_area("; "Your Prompt:"; ", height=100)"];
    EmptyString;
    "# Shared model settings";
    "col1, col2, col3 = st.columns(3)";
    "with col1:";
    quoted ["    model = st.selectbox("; "Select Model"; ", ["];
    quoted ["        "; "llama-3.3-70b-versatile"; ","];
    quoted ["        "; "llama3-groq-8b-8192-tool-use-preview"; ","];
    quoted ["        "; "llama3-70b-8192"; ","];
    quoted ["        "; "llama3-8b-8192"; EmptyString];
    "    ], index=0)";
    "with col2:";
    quoted ["    temperature = st.slider("; "Temperature"; ", 0.0, 1.0, DEFAULT_TEMPERATURE, 0.1)"];
    "with col3:";
    quoted ["    max_tokens = st.number_input("; "Max Tokens"; ", 1, 32768, DEFAULT_MAX_TOKENS)"];
    EmptyString;
    quoted ["if st.button("; "Optimize Prompt"; "):"];
    "    if not GROQ_API_KEY:";
    quoted ["        st.error("; "Please enter your GROQ API Key in the sidebar."; ")"];
    "    elif user_prompt or canvas_prompt:";
    "        os.environ['GROQ_API_KEY'] = GROQ_API_KEY";
    "        ";
    "        try:";
    quoted ["            Grompt = import_module_from_path("; "Grompt"; ", "; "Grompt.py"; ")"];
    "        except Exception as e:";
    quoted ["            st.error(f"; "Unable to import 'Grompt': {str(e)}"; ")"];
    "            st.stop()";
    "        ";
    quoted ["        with st.spinner("; "Optimizing prompt..."; "):"];
    "            if canvas_prompt:  # Advanced mode";
    "                canvas = PromptCanvas(";
    "                    persona=persona,";
    "                    audience=audience,";
    "                    task=task,";
    "                    steps=[s.strip() for s in steps.split('\n') if s.strip()],";
    "                    context=context,";
    "                    references=[r.strip() for r in references.split('\n') if r.strip()],";
    "                    output_format=output_format,";
    "                    tonality=tonality";
    "                )";
    "                optimized_prompt = Grompt.rephrase_prompt(";
    "                    canvas_prompt, model, temperature, max_tokens, canvas=canvas";
    "                )";
    "            else:  # Basic mode";
    "                optimized_prompt = Grompt.rephrase_prompt(";
    "                    user_prompt, model, temperature, max_tokens";
    "                )";
    "                ";
    "            if optimized_prompt:";
    quoted ["                st.subheader("; "Optimized Prompt:"; ")"];
    "                st.write(optimized_prompt)";
    "    else:";
    quoted ["        st.warning("; "Please enter a prompt to optimize."; ")"];
    EmptyString;
    quoted ["st.markdown("; "---"; ")"];
    quoted ["st.write("; "Powered by Groq LLM services."; ")"];
    EmptyString;
    quoted ["st.sidebar.markdown("; "---"; ")"];
    "st.sidebar.info(";
    quoted ["    "; "Note: Your API key is used only for this session and is not stored. "; EmptyString];
    quoted ["    "; "Always keep your API keys confidential."; EmptyString];
    ")";
    EmptyString;
    quoted ["st.sidebar.markdown("; "---"; ")"];
    quoted ["st.sidebar.markdown("; "[View on GitHub](https://github.com/jgravelle/Grompt)"; ")"];
    quoted ["st.sidebar.markdown("; "Created by J. Gravelle"; ")"] ].

End Sources.

(** ** Vocabulary of the statements *)

(** [p] occurs in [t] as a contiguous run of characters. *)
Definition contains (t p : str) : Prop := exists a b, t = a ++ p ++ b.

(** [t] ends with [p]: nothing follows it. *)
Definition ends_with (t p : str) : Prop := exists a, t = a ++ p.

(** The parts occur in [t] one after the other, without overlap. *)
Fixpoint in_order (parts : list str) (t : str) : Prop :=
  match parts with
  | [] => True
  | p :: ps => exists a b, t = a ++ p ++ b /\ in_order ps b
  end.

(** The lines of a text, and its last line. *)
Definition lines (t : str) : list str := split 10 t.
Definition last_line (t : str) : str := last (lines t) [].


(** A string without a line feed. *)
Definition one_line (s : str) : Prop := ~ In 10 s.

(** The labels of the canvas template, in the order of the source. *)
Definition section_labels : list str :=
  [lit "Task:"; lit "Step-by-Step Approach:"; lit "Context:";
   lit "References:"; lit "Output Requirements:"].

(** A string that neither starts nor ends with a whitespace character. *)
Definition no_space_at_ends (s : str) : Prop :=
  (forall c t, s = c :: t -> isspace c = false)
  /\ (forall c t, s = t ++ [c] -> isspace c = false).

(** A string made of whitespace only. *)
Definition all_space (s : str) : bool := forallb isspace s.

(** The reading of the form's list fields in the words of the
    specification: split on newlines, trim each line, discard the lines that
    are empty after trimming. *)
Definition split_trim_discard (text : str) : list str :=
  List.filter truthy (List.map strip (split 10 text)).

(** ** Inputs of the examples *)


(** A provider object whose [generate] returns the same text for every
    request, and one whose [generate] raises. *)
Definition answering (text : str) : pocketgroq.GroqProvider :=
  pocketgroq.mkGroqProvider (fun _ => inr text).
Definition failing (e : exn) : pocketgroq.GroqProvider :=
  pocketgroq.mkGroqProvider (fun _ => inl e).

(** A provider class that refuses to be constructed without a credential,
    as a client of a hosted service does, and otherwise yields [groq]. *)
Definition GroqAPIKeyMissingError : exn :=
  mkExn "GroqAPIKeyMissingError" (lit "Groq API key is not provided").
Definition keyed_class (groq : pocketgroq.GroqProvider)
    : pocketgroq.GroqProvider_class :=
  fun credential =>
    match credential with
    | Some (_ :: _) => inr groq
    | _ => inl GroqAPIKeyMissingError
    end.

(** [PromptCanvas()] in [streamlit_app.py]: no field supplied. *)
Definition PromptCanvas_default : streamlit_app.PromptCanvas :=
  streamlit_app.PromptCanvas_init None None None None None None None None.

(** ** Vocabulary of the further properties *)

(** The lines a run printed, the credentials its constructor calls found and
    what it showed on the page, each in order. *)
Fixpoint printed (t : list Run.event) : list str :=
  match t with
  | [] => []
  | Run.EvPrint line :: t' => line :: printed t'
  | _ :: t' => printed t'
  end.

Fixpoint constructions (t : list Run.event) : list (option str) :=
  match t with
  | [] => []
  | Run.EvNewProvider credential :: t' => credential :: constructions t'
  | _ :: t' => constructions t'
  end.

Definition is_widget (e : Run.event) : bool :=
  match e with
  | Run.EvStError _ | Run.EvStWarning _ | Run.EvStSubheader _
  | Run.EvStWrite _ | Run.EvStStop => true
  | _ => false
  end.

Definition shown (t : list Run.event) : list Run.event :=
  List.filter is_widget t.

(** A string without a line feed, decided. *)
Definition one_line_b (s : str) : bool :=
  forallb (fun c => negb (c =? 10)) s.

(** The attributes Grompt reads from the instance the advanced mode builds,
    and the instruction the handler has built when it calls the provider:
    the canvas template when "Your Prompt" is filled in, the plain template
    around the basic prompt otherwise. *)
Definition form_canvas (f : streamlit_app.Form) : prompt_canvas.PromptCanvas :=
  prompt_canvas.mkPromptCanvas
    (streamlit_app.f_persona f) (streamlit_app.f_audience f)
    (streamlit_app.f_task f)
    (streamlit_app.stripped_lines (streamlit_app.f_steps f))
    (streamlit_app.f_context f)
    (streamlit_app.stripped_lines (streamlit_app.f_references f))
    (streamlit_app.f_output_format f) (streamlit_app.f_tonality f).

Definition form_instruction (f : streamlit_app.Form) : str :=
  if truthy (streamlit_app.canvas_prompt f) then
    Grompt.craft_system_message (Some (form_canvas f))
      (Some (streamlit_app.canvas_prompt f))
  else
    Grompt.craft_system_message None (Some (streamlit_app.user_prompt f)).

Definition form_request (f : streamlit_app.Form) : pocketgroq.Request :=
  pocketgroq.mkRequest (form_instruction f) (streamlit_app.f_model f)
    (streamlit_app.f_temperature f) (streamlit_app.f_max_tokens f).

(** A form with other texts in its two prompt fields. *)
Definition with_prompts (user canvas : str) (f : streamlit_app.Form)
    : streamlit_app.Form :=
  streamlit_app.mkForm user
    (streamlit_app.f_persona f) (streamlit_app.f_audience f)
    (streamlit_app.f_task f) (streamlit_app.f_steps f)
    (streamlit_app.f_context f) (streamlit_app.f_references f)
    (streamlit_app.f_output_format f) (streamlit_app.f_tonality f)
    canvas
    (streamlit_app.f_model f) (streamlit_app.f_temperature f)
    (streamlit_app.f_max_tokens f).

(** A form in basic mode that asks for a poem, and one in advanced mode
    with two steps. *)
Definition poem_form : streamlit_app.Form :=
  streamlit_app.mkForm (lit "write a poem") [] [] [] [] [] [] [] [] []
    (lit "llama-3.3-70b-versatile") (1 # 2)%Q 1024%Z.

Definition essay_form : streamlit_app.Form :=
  streamlit_app.mkForm [] (lit "writer") (lit "students") (lit "an essay")
    (lit " outline " ++ nl ++ nl ++ lit "draft") [] [] (lit "Markdown")
    (lit "plain") (lit "go")
    (lit "llama-3.3-70b-versatile") (1 # 2)%Q 1024%Z.

(** ** Facts about [split], [join] and [strip] *)

Lemma split_not_nil (sep : N) (s : str) : split sep s <> [].
Proof.
  destruct s as [|c t]; simpl; [discriminate|].
  destruct (c =? sep); [discriminate|].
  destruct (split sep t); discriminate.
Qed.

Lemma split_app (sep : N) (a b : str) :
  split sep (a ++ sep :: b) = split sep a ++ split sep b.
Proof.
  induction a as [|c a IH]; simpl.
  - now rewrite N.eqb_refl.
  - destruct (c =? sep); [now rewrite IH|].
    rewrite IH.
    destruct (split sep a) as [|l ls] eqn:E; [|reflexivity].
    now destruct (split_not_nil sep a).
Qed.

Lemma split_one_line (sep : N) (s : str) : ~ In sep s -> split sep s = [s].
Proof.
  induction s as [|c t IH]; intros H; simpl; [reflexivity|].
  destruct (N.eqb_spec c sep) as [->|_].
  - destruct H; now left.
  - rewrite IH; [reflexivity|]. intros Hin; apply H; now right.
Qed.

Lemma last_app_right {A} (xs ys : list A) (d : A) :
  ys <> [] -> last (xs ++ ys) d = last ys d.
Proof.
  intros H; induction xs as [|x xs IH]; [reflexivity|].
  simpl. destruct (xs ++ ys) eqn:E; [|exact IH].
  apply app_eq_nil in E; destruct E; contradiction.
Qed.

Lemma last_line_app (a b : str) : last_line (a ++ nl ++ b) = last_line b.
Proof.
  unfold last_line, lines, nl; simpl.
  rewrite split_app. apply last_app_right, split_not_nil.
Qed.

(** ** The instruction builder *)

Lemma in_order_cons (a p b : str) (ps : list str) :
  in_order ps b -> in_order (p :: ps) (a ++ p ++ b).
Proof. intros H. exists a, b. split; [reflexivity|exact H]. Qed.

(** The canvas template, cut at its labels: the role sentence, then each
    label preceded by what the template and the fields put before it. *)
Lemma canvas_template_shape (c : prompt_canvas.PromptCanvas) (p : option str) :
  Grompt.craft_system_message (Some c) p
  = Grompt.role_sentence c
    ++ (nl ++ nl) ++ lit "Task:"
    ++ (lit " " ++ prompt_canvas.task c ++ nl ++ nl)
    ++ lit "Step-by-Step Approach:"
    ++ (nl ++ Grompt.steps_body c ++ nl ++ nl) ++ lit "Context:"
    ++ (lit " " ++ prompt_canvas.context c ++ nl ++ nl) ++ lit "References:"
    ++ (lit " " ++ Grompt.references_line c ++ nl ++ nl)
    ++ lit "Output Requirements:"
    ++ (nl ++ lit "- Format: " ++ prompt_canvas.output_format c
        ++ nl ++ lit "- Tone: " ++ prompt_canvas.tonality c).
Proof.
  unfold Grompt.craft_system_message. rewrite <- !app_assoc. reflexivity.
Qed.

(** C3.  For every raw prompt [p] (empty or not), the plain instruction
    contains [p] verbatim, ends with the cue "Rephrased:" with nothing after
    it, and that cue stands alone on the last line, after the four spaces
    with which the template indents the line. *)
Theorem plain_instruction_embeds_prompt_and_ends_with_cue (p : str) :
  contains (Grompt.craft_system_message None (Some p)) p
  /\ ends_with (Grompt.craft_system_message None (Some p)) (lit "Rephrased:")
  /\ last_line (Grompt.craft_system_message None (Some p))
     = lit "    " ++ lit "Rephrased:".
Proof.
  unfold Grompt.craft_system_message, Grompt.get_rephrased_user_prompt; simpl format.
  repeat split.
  - exists (lit "You are a professional prompt engineer. Optimize this prompt by making it clearer, more concise, and more effective."
            ++ nl ++ lit "    User request: " ++ dquote),
           (dquote ++ nl ++ lit "    Rephrased:").
    rewrite <- !app_assoc. reflexivity.
  - exists (lit "You are a professional prompt engineer. Optimize this prompt by making it clearer, more concise, and more effective."
            ++ nl ++ lit "    User request: " ++ dquote ++ p ++ dquote
            ++ nl ++ lit "    ").
    rewrite <- !app_assoc. reflexivity.
  - match goal with
    | |- last_line ?t = _ =>
        replace t with
          ((lit "You are a professional prompt engineer. Optimize this prompt by making it clearer, more concise, and more effective."
            ++ nl ++ lit "    User request: " ++ dquote ++ p ++ dquote)
           ++ nl ++ lit "    Rephrased:")
          by (rewrite <- !app_assoc; reflexivity)
    end.
    rewrite last_line_app. reflexivity.
Qed.

(** C4.  With a canvas, the raw prompt has no part in the outcome: the
    instruction is the same for any two raw prompts ([None] included), and
    so is the whole run of [rephrase_prompt], also for the instance the
    advanced mode of the form hands over. *)
Theorem canvas_takes_precedence_over_raw_prompt
    (c : prompt_canvas.PromptCanvas) (p1 p2 : option str) :
  Grompt.craft_system_message (Some c) p1 = Grompt.craft_system_message (Some c) p2
  /\ (forall cls model temperature max_tokens,
        Grompt.rephrase_prompt cls p1 model temperature max_tokens (Some c)
        = Grompt.rephrase_prompt cls p2 model temperature max_tokens (Some c))
  /\ (forall f,
        streamlit_app.craft_system_message_on (streamlit_app.canvas_of_form f) p1
        = streamlit_app.craft_system_message_on (streamlit_app.canvas_of_form f) p2).
Proof.
  split; [reflexivity|]. split; [reflexivity|]. intros f. reflexivity.
Qed.

(** C5.  For every canvas, the instruction built without a raw prompt
    contains, one after the other, the role-setting sentence "You are a
    <persona> focused on delivering results for <audience>." with the
    persona and the audience of the canvas in it, and the labels "Task:",
    "Step-by-Step Approach:", "Context:", "References:", "Output
    Requirements:".  The instruction starts with that sentence. *)
Theorem canvas_instruction_sections_in_order (c : prompt_canvas.PromptCanvas) :
  in_order
    ((lit "You are a " ++ prompt_canvas.persona c
      ++ lit " focused on delivering results for " ++ prompt_canvas.audience c
      ++ lit ".")
     :: [lit "Task:"; lit "Step-by-Step Approach:"; lit "Context:";
         lit "References:"; lit "Output Requirements:"])
    (Grompt.craft_system_message (Some c) None)
  /\ (exists rest,
        Grompt.craft_system_message (Some c) None
        = (lit "You are a " ++ prompt_canvas.persona c
           ++ lit " focused on delivering results for "
           ++ prompt_canvas.audience c ++ lit ".")
          ++ rest
        /\ in_order section_labels rest).
Proof.
  rewrite canvas_template_shape. unfold section_labels, Grompt.role_sentence.
  split.
  - apply (in_order_cons []).
    do 5 apply in_order_cons.
    exact I.
  - eexists. split; [reflexivity|].
    do 5 apply in_order_cons.
    exact I.
Qed.

(** ** The steps section *)

Lemma lines_join (xs : list str) :
  xs <> [] -> Forall one_line xs -> lines (join nl xs) = xs.
Proof.
  unfold lines.
  induction xs as [|x rest IH]; intros Hne Hall; [contradiction|].
  inversion Hall as [|? ? Hx Hrest]; subst.
  destruct rest as [|y rest'].
  - simpl. now apply split_one_line.
  - change (join nl (x :: y :: rest')) with (x ++ 10 :: join nl (y :: rest')).
    rewrite split_app, (split_one_line 10 x Hx), IH; [reflexivity|discriminate|assumption].
Qed.






(** ** Whitespace *)

Lemma lstrip_cut (s : str) :
  exists l, s = l ++ lstrip s /\ all_space l = true.
Proof.
  induction s as [|c t [l [E Hl]]]; [now exists []|].
  simpl. destruct (isspace c) eqn:Hc.
  - exists (c :: l). split; [simpl; now f_equal|]. simpl. now rewrite Hc.
  - now exists [].
Qed.

Lemma lstrip_head (s : str) (c : N) (t : str) :
  lstrip s = c :: t -> isspace c = false.
Proof.
  induction s as [|d s IH]; simpl; [discriminate|].
  destruct (isspace d) eqn:Hd; [exact IH|].
  intros E. injection E as -> _. exact Hd.
Qed.

Lemma lstrip_keeps_after_letter (a : str) (c : N) (b : str) :
  isspace c = false -> lstrip (a ++ c :: b) = lstrip a ++ c :: b.
Proof.
  intros Hc. induction a as [|d a IH]; simpl.
  - now rewrite Hc.
  - destruct (isspace d); [exact IH|reflexivity].
Qed.

Lemma all_space_rev (l : str) : all_space (rev l) = all_space l.
Proof.
  unfold all_space. induction l as [|c l IH]; [reflexivity|].
  simpl. rewrite forallb_app, IH. simpl. rewrite andb_true_r. apply andb_comm.
Qed.

Lemma rstrip_cut (s : str) :
  exists r, s = rstrip s ++ r /\ all_space r = true.
Proof.
  unfold rstrip. destruct (lstrip_cut (rev s)) as [l [E Hl]].
  exists (rev l). split; [|now rewrite all_space_rev].
  rewrite <- rev_app_distr, <- E. now rewrite rev_involutive.
Qed.

Lemma rstrip_last (s : str) (c : N) (t : str) :
  rstrip s = t ++ [c] -> isspace c = false.
Proof.
  unfold rstrip. intros E.
  apply (f_equal (@rev N)) in E. rewrite rev_involutive, rev_app_distr in E.
  simpl in E. now apply lstrip_head in E.
Qed.

Lemma rstrip_keeps_head (c : N) (t : str) :
  isspace c = false -> rstrip (c :: t) = c :: rstrip t.
Proof.
  intros Hc. unfold rstrip. simpl rev at 2.
  rewrite lstrip_keeps_after_letter by exact Hc.
  rewrite rev_app_distr. reflexivity.
Qed.

(** [strip] removes whitespace at both ends and nothing else. *)
Lemma strip_cut (s : str) :
  exists l r, s = l ++ strip s ++ r /\ all_space l = true /\ all_space r = true.
Proof.
  destruct (lstrip_cut s) as [l [El Hl]].
  destruct (rstrip_cut (lstrip s)) as [r [Er Hr]].
  exists l, r. unfold strip. now rewrite <- Er, <- El.
Qed.

Lemma strip_no_space_at_ends (s : str) : no_space_at_ends (strip s).
Proof.
  unfold strip. split.
  - intros c t E. destruct (lstrip s) as [|d u] eqn:Hs.
    + discriminate.
    + pose proof (lstrip_head _ _ _ Hs) as Hd.
      rewrite (rstrip_keeps_head d u Hd) in E. now injection E as <- _.
  - intros c t. apply rstrip_last.
Qed.

Lemma In_lstrip (x : N) (s : str) : In x (lstrip s) -> In x s.
Proof.
  induction s as [|c t IH]; simpl; [tauto|].
  destruct (isspace c); [intros H; right; now apply IH|simpl; tauto].
Qed.

Lemma In_strip (x : N) (s : str) : In x (strip s) -> In x s.
Proof.
  unfold strip, rstrip. intros H.
  apply In_lstrip. apply in_rev. apply In_lstrip. now apply in_rev in H.
Qed.

(** ** The list fields of the form *)

Lemma join_split (t : str) : join nl (split 10 t) = t.
Proof.
  induction t as [|c t IH]; [reflexivity|].
  simpl split. destruct (N.eqb_spec c 10) as [->|_].
  - destruct (split 10 t) as [|l ls] eqn:E; [now destruct (split_not_nil 10 t)|].
    change (join nl ([] :: l :: ls)) with (10 :: join nl (l :: ls)).
    now rewrite IH.
  - destruct (split 10 t) as [|l ls] eqn:E; [now destruct (split_not_nil 10 t)|].
    rewrite <- IH. destruct ls; reflexivity.
Qed.

Lemma split_pieces_one_line (t : str) : Forall one_line (split 10 t).
Proof.
  induction t as [|c t IH]; simpl.
  - constructor; [intros []|constructor].
  - destruct (N.eqb_spec c 10) as [->|Hc].
    + constructor; [intros []|exact IH].
    + destruct (split 10 t) as [|l ls]; [repeat constructor; intros [H|[]]; congruence|].
      inversion IH as [|? ? Hl Hls]; subst.
      constructor; [|exact Hls].
      intros [H|H]; [congruence|now apply Hl].
Qed.

Lemma map_filter_after (f : str -> str) (p : str -> bool) (l : list str) :
  List.map f (List.filter (fun x => p (f x)) l) = List.filter p (List.map f l).
Proof.
  induction l as [|x l IH]; [reflexivity|].
  simpl. destruct (p (f x)); simpl; now rewrite IH.
Qed.

(** C9.  The list fields of the advanced mode: the source's comprehension
    equals "split on newlines, trim each line, discard the lines empty after
    trimming", which keeps the order of the lines; the lines split from are
    those of the text; no element of the outcome is empty, none holds a
    line feed, none starts or ends with whitespace; and the canvas of the
    form holds these sequences. *)
Theorem form_lists_split_trimmed_nonempty (text : str) :
  streamlit_app.stripped_lines text = split_trim_discard text
  /\ join nl (split 10 text) = text
  /\ Forall (fun s => s <> []) (streamlit_app.stripped_lines text)
  /\ Forall one_line (streamlit_app.stripped_lines text)
  /\ Forall no_space_at_ends (streamlit_app.stripped_lines text)
  /\ (forall f,
        streamlit_app.steps (streamlit_app.canvas_of_form f)
        = Some (streamlit_app.stripped_lines (streamlit_app.f_steps f))
        /\ streamlit_app.references (streamlit_app.canvas_of_form f)
           = Some (streamlit_app.stripped_lines (streamlit_app.f_references f))).
Proof.
  unfold streamlit_app.stripped_lines, split_trim_discard.
  split; [apply map_filter_after|].
  split; [apply join_split|].
  split; [|split; [|split]].
  - apply Forall_map, Forall_forall. intros s Hs.
    apply filter_In in Hs. destruct Hs as [_ Hs].
    destruct (strip s); [discriminate|discriminate].
  - apply Forall_map, Forall_forall. intros s Hs.
    apply filter_In in Hs. destruct Hs as [Hs _].
    pose proof (split_pieces_one_line text) as Hall.
    rewrite Forall_forall in Hall. intros Hin. apply (Hall s Hs).
    now apply In_strip.
  - apply Forall_map, Forall_forall. intros s _. apply strip_no_space_at_ends.
  - intros f. split; reflexivity.
Qed.

(** ** The client call *)

(** One run of the body of [rephrase_prompt], case by case. *)
Lemma rephrase_prompt_body_run
    (cls : pocketgroq.GroqProvider_class) (template : result str)
    (model : str) (temperature : Q) (max_tokens : Z) (w : Run.world) :
  Grompt.rephrase_prompt_body cls template model temperature max_tokens w
  = match cls (Run.environ_GROQ_API_KEY w) with
    | inl e =>
        (Run.mkWorld (Run.environ_GROQ_API_KEY w)
           (Run.trace w ++ [Run.EvNewProvider (Run.environ_GROQ_API_KEY w)]),
         inl (Exception (Grompt.wrapped_message (exn_str e))))
    | inr groq =>
        match template with
        | inl e =>
            (Run.mkWorld (Run.environ_GROQ_API_KEY w)
               (Run.trace w ++ [Run.EvNewProvider (Run.environ_GROQ_API_KEY w)]),
             inl (Exception (Grompt.wrapped_message (exn_str e))))
        | inr system_message =>
            (Run.mkWorld (Run.environ_GROQ_API_KEY w)
               ((Run.trace w ++ [Run.EvNewProvider (Run.environ_GROQ_API_KEY w)])
                ++ [Run.EvGenerate
                      (pocketgroq.mkRequest system_message model temperature
                         max_tokens)]),
             match pocketgroq.generate groq
                     (pocketgroq.mkRequest system_message model temperature
                        max_tokens) with
             | inl e => inl (Exception (Grompt.wrapped_message (exn_str e)))
             | inr response => inr (strip response)
             end)
        end
    end.
Proof.
  unfold Grompt.rephrase_prompt_body, Run.try_except, Run.bind,
    Run.new_GroqProvider, Run.call_generate, Run.getenv_GROQ_API_KEY,
    Run.emit, Run.lift, Run.ret, Run.raise, Run.bind.
  cbn [Run.environ_GROQ_API_KEY Run.trace].
  destruct (cls (Run.environ_GROQ_API_KEY w)) as [e|groq]; [reflexivity|].
  destruct template as [e|system_message]; [reflexivity|].
  cbn [Run.environ_GROQ_API_KEY Run.trace].
  destruct (pocketgroq.generate groq _); reflexivity.
Qed.

Lemma generate_calls_app (t u : list Run.event) :
  Run.generate_calls (t ++ u) = Run.generate_calls t ++ Run.generate_calls u.
Proof.
  induction t as [|e t IH]; [reflexivity|].
  destruct e; simpl; now rewrite IH.
Qed.

(** C7.  When the provider is constructed and its call returns [text],
    [rephrase_prompt] returns [text.strip()] and nothing else: [text] is the
    result with whitespace on either side, the result neither starts nor
    ends with whitespace, and the run made one constructor call and one
    request. *)
Theorem rephrase_prompt_returns_stripped_response
    (cls : pocketgroq.GroqProvider_class) (groq : pocketgroq.GroqProvider)
    (text : str) (prompt : option str) (model : str) (temperature : Q)
    (max_tokens : Z) (canvas : option prompt_canvas.PromptCanvas)
    (w : Run.world) :
  cls (Run.environ_GROQ_API_KEY w) = inr groq ->
  pocketgroq.generate groq
    (pocketgroq.mkRequest (Grompt.craft_system_message canvas prompt)
       model temperature max_tokens) = inr text ->
  snd (Grompt.rephrase_prompt cls prompt model temperature max_tokens canvas w)
  = inr (strip text)
  /\ (exists l r, text = l ++ strip text ++ r
                  /\ all_space l = true /\ all_space r = true)
  /\ no_space_at_ends (strip text)
  /\ Run.trace
       (fst (Grompt.rephrase_prompt cls prompt model temperature max_tokens
               canvas w))
     = Run.trace w
       ++ [Run.EvNewProvider (Run.environ_GROQ_API_KEY w);
           Run.EvGenerate
             (pocketgroq.mkRequest (Grompt.craft_system_message canvas prompt)
                model temperature max_tokens)].
Proof.
  intros Hcls Hgen. unfold Grompt.rephrase_prompt.
  rewrite rephrase_prompt_body_run, Hcls, Hgen. cbn [fst snd Run.trace].
  split; [reflexivity|].
  split; [apply strip_cut|].
  split; [apply strip_no_space_at_ends|].
  now rewrite <- app_assoc.
Qed.

(** The examples of the specification: the response "  hi  " gives "hi",
    and a response without surrounding whitespace is returned as it is. *)
Lemma rephrase_prompt_strips_hi :
  snd (Grompt.rephrase_prompt (keyed_class (answering (lit "  hi  ")))
         (Some (lit "write a poem")) (lit "llama-3.3-70b-versatile")
         (1 # 2)%Q 1024%Z None (Run.start (Some (lit "gsk"))))
  = inr (lit "hi").
Proof.
  exact (proj1 (rephrase_prompt_returns_stripped_response
                  (keyed_class (answering (lit "  hi  ")))
                  (answering (lit "  hi  ")) (lit "  hi  ")
                  (Some (lit "write a poem")) (lit "llama-3.3-70b-versatile")
                  (1 # 2)%Q 1024%Z None (Run.start (Some (lit "gsk")))
                  eq_refl eq_refl)).
Defined.

(** C2.  When the provider's call raises [e], [rephrase_prompt] raises one
    [Exception] whose message is "Prompt engineering error: " followed by
    [str(e)], so it contains [str(e)]; the run made exactly one request (no
    second attempt), and that request carries the finished instruction. *)
Theorem provider_failure_raises_one_wrapped_error
    (cls : pocketgroq.GroqProvider_class) (groq : pocketgroq.GroqProvider)
    (e : exn) (prompt : option str) (model : str) (temperature : Q)
    (max_tokens : Z) (canvas : option prompt_canvas.PromptCanvas)
    (w : Run.world) :
  cls (Run.environ_GROQ_API_KEY w) = inr groq ->
  pocketgroq.generate groq
    (pocketgroq.mkRequest (Grompt.craft_system_message canvas prompt)
       model temperature max_tokens) = inl e ->
  snd (Grompt.rephrase_prompt cls prompt model temperature max_tokens canvas w)
  = inl (Exception (lit "Prompt engineering error: " ++ exn_str e))
  /\ contains (lit "Prompt engineering error: " ++ exn_str e) (exn_str e)
  /\ Run.generate_calls
       (Run.trace
          (fst (Grompt.rephrase_prompt cls prompt model temperature max_tokens
                  canvas w)))
     = Run.generate_calls (Run.trace w)
       ++ [pocketgroq.mkRequest (Grompt.craft_system_message canvas prompt)
             model temperature max_tokens].
Proof.
  intros Hcls Hgen. unfold Grompt.rephrase_prompt.
  rewrite rephrase_prompt_body_run, Hcls, Hgen. cbn [fst snd Run.trace].
  split; [reflexivity|]. split.
  - exists (lit "Prompt engineering error: "), []. now rewrite app_nil_r.
  - rewrite !generate_calls_app. simpl. now rewrite app_nil_r.
Qed.

(** A stub of the provider that raises "rate limit": one wrapped error. *)
Lemma provider_failure_example :
  snd (Grompt.rephrase_prompt
         (keyed_class (failing (mkExn "RateLimitError" (lit "rate limit"))))
         (Some (lit "write a poem")) (lit "llama-3.3-70b-versatile")
         (1 # 2)%Q 1024%Z None (Run.start (Some (lit "gsk"))))
  = inl (Exception (lit "Prompt engineering error: rate limit")).
Proof.
  exact (proj1 (provider_failure_raises_one_wrapped_error
                  (keyed_class (failing (mkExn "RateLimitError" (lit "rate limit"))))
                  (failing (mkExn "RateLimitError" (lit "rate limit")))
                  (mkExn "RateLimitError" (lit "rate limit"))
                  (Some (lit "write a poem")) (lit "llama-3.3-70b-versatile")
                  (1 # 2)%Q 1024%Z None (Run.start (Some (lit "gsk")))
                  eq_refl eq_refl)).
Defined.

(** ** The credential *)

(** C1, as the code has it.  [rephrase_prompt] checks no credential of its
    own.  When the constructor of the provider raises [e], as it does for a
    missing credential, no request is made, and the failure is raised as the
    same wrapped error as any other, with [str(e)] after the prefix.  The
    check that precedes every call is the form's: with an empty credential
    the handler shows its error message and does nothing else, so no
    provider is constructed and nothing is raised. *)
Theorem missing_credential_wrapped_by_rephrase_guarded_by_form
    (cls : pocketgroq.GroqProvider_class) (e : exn)
    (prompt : option str) (model : str) (temperature : Q) (max_tokens : Z)
    (canvas : option prompt_canvas.PromptCanvas) (w : Run.world) :
  cls (Run.environ_GROQ_API_KEY w) = inl e ->
  snd (Grompt.rephrase_prompt cls prompt model temperature max_tokens canvas w)
  = inl (Exception (lit "Prompt engineering error: " ++ exn_str e))
  /\ Run.generate_calls
       (Run.trace
          (fst (Grompt.rephrase_prompt cls prompt model temperature max_tokens
                  canvas w)))
     = Run.generate_calls (Run.trace w)
  /\ (forall import_Grompt f,
        streamlit_app.on_optimize [] import_Grompt f w
        = (Run.mkWorld (Run.environ_GROQ_API_KEY w)
             (Run.trace w
              ++ [Run.EvStError
                    (lit "Please enter your GROQ API Key in the sidebar.")]),
           inr tt)).
Proof.
  intros Hcls. unfold Grompt.rephrase_prompt.
  rewrite rephrase_prompt_body_run, Hcls. cbn [fst snd Run.trace].
  split; [reflexivity|]. split.
  - rewrite generate_calls_app. simpl. now rewrite app_nil_r.
  - intros import_Grompt f. reflexivity.
Qed.

(** With no credential in the environment the stub class raises, and the
    caller of [rephrase_prompt] gets the wrapped error. *)
Lemma missing_credential_example :
  snd (Grompt.rephrase_prompt (keyed_class (answering (lit "ok")))
         (Some (lit "hi")) (lit "llama-3.3-70b-versatile") (1 # 2)%Q 1024%Z
         None (Run.start None))
  = inl (Exception (lit "Prompt engineering error: Groq API key is not provided")).
Proof.
  exact (proj1 (missing_credential_wrapped_by_rephrase_guarded_by_form
                  (keyed_class (answering (lit "ok"))) GroqAPIKeyMissingError
                  (Some (lit "hi")) (lit "llama-3.3-70b-versatile")
                  (1 # 2)%Q 1024%Z None (Run.start None) eq_refl)).
Defined.

(** C1, as stated, fails: with no credential configured, or an empty one,
    the failure of [rephrase_prompt] is the wrapped error, and the command
    line prints it as any other failure. *)
Lemma missing_credential_is_wrapped_counterexample :
  snd (Grompt.rephrase_prompt (keyed_class (answering (lit "ok")))
         (Some (lit "hi")) (lit "llama-3.3-70b-versatile") (1 # 2)%Q 1024%Z
         None (Run.start None))
  = inl (Exception (Grompt.wrapped_message (exn_str GroqAPIKeyMissingError)))
  /\ snd (Grompt.rephrase_prompt (keyed_class (answering (lit "ok")))
            (Some (lit "hi")) (lit "llama-3.3-70b-versatile") (1 # 2)%Q 1024%Z
            None (Run.start (Some [])))
     = inl (Exception (Grompt.wrapped_message (exn_str GroqAPIKeyMissingError)))
  /\ Run.trace
       (fst (Grompt.main (keyed_class (answering (lit "ok")))
               (lit "hi") (lit "llama-3.3-70b-versatile") (1 # 2)%Q 1024%Z
               (Run.start None)))
     = [Run.EvNewProvider None;
        Run.EvPrint
          (lit "Error: Prompt engineering error: Groq API key is not provided")].
Proof.
  split; [reflexivity|]. split; reflexivity.
Qed.

(** ** The defaults of the form's canvas *)

(** C8 on the code.  [PromptCanvas()] of [streamlit_app.py] has the empty
    string in its six string fields and [None], not the empty list, in
    [steps] and [references]; the template raises [TypeError] on such an
    instance, which [rephrase_prompt] wraps after it has constructed the
    provider. *)
Theorem default_canvas_has_None_for_its_lists :
  streamlit_app.persona PromptCanvas_default = []
  /\ streamlit_app.audience PromptCanvas_default = []
  /\ streamlit_app.task PromptCanvas_default = []
  /\ streamlit_app.context PromptCanvas_default = []
  /\ streamlit_app.output_format PromptCanvas_default = []
  /\ streamlit_app.tonality PromptCanvas_default = []
  /\ streamlit_app.steps PromptCanvas_default = None
  /\ streamlit_app.references PromptCanvas_default = None
  /\ streamlit_app.steps PromptCanvas_default <> Some []
  /\ streamlit_app.craft_system_message_on PromptCanvas_default None
     = inl (TypeError (lit "'NoneType' object is not iterable"))
  /\ snd (streamlit_app.rephrase_prompt_on (keyed_class (answering (lit "ok")))
            None (lit "llama-3.3-70b-versatile") (1 # 2)%Q 1024%Z
            PromptCanvas_default (Run.start (Some (lit "gsk"))))
     = inl (Exception
              (lit "Prompt engineering error: 'NoneType' object is not iterable")).
Proof.
  repeat (split; [reflexivity|]). split; [discriminate|].
  split; reflexivity.
Qed.

(** ** The source of the form *)

(** C10.  [streamlit_app.py] does not compile.  Its line 42, the first
    after the call of [st.title], is indented although no block is open:
    the first error of the file is "unexpected indent" there.  Without that
    line the closing parenthesis of line 43 has nothing to close; without
    both lines the file has no error of layout, as the two other files have
    none.  So running the module raises before its first statement: no
    statement of the form, the handler of the button included, leaves an
    event or a result. *)
Theorem streamlit_app_source_does_not_compile :
  Layout.check Sources.streamlit_app_py = Some (42%nat, Layout.UnexpectedIndent)
  /\ Layout.check (Layout.without_line 42 Sources.streamlit_app_py)
     = Some (42%nat, Layout.UnmatchedClosing ")"%char)
  /\ Layout.check
       (Layout.without_line 42 (Layout.without_line 42 Sources.streamlit_app_py))
     = None
  /\ Layout.check Sources.prompt_canvas_py = None
  /\ Layout.check Sources.Grompt_py = None
  /\ (forall (A : Type) (statements : Run.M A) (w : Run.world),
        Layout.exec_module Sources.streamlit_app_py statements w
        = (w, inl (mkExn "IndentationError" (lit "unexpected indent"))))
  /\ (forall GROQ_API_KEY import_Grompt f w,
        Layout.exec_module Sources.streamlit_app_py
          (streamlit_app.on_optimize GROQ_API_KEY import_Grompt f) w
        = (w, inl (mkExn "IndentationError" (lit "unexpected indent")))).
Proof.
  assert (E : Layout.check Sources.streamlit_app_py
              = Some (42%nat, Layout.UnexpectedIndent))
    by (vm_compute; reflexivity).
  split; [exact E|].
  split; [vm_compute; reflexivity|].
  split; [vm_compute; reflexivity|].
  split; [vm_compute; reflexivity|].
  split; [vm_compute; reflexivity|].
  split; intros; unfold Layout.exec_module; rewrite E; reflexivity.
Qed.

(** * Further properties of the code *)

(** ** Trimming *)

Lemma lstrip_all_space (s : str) : all_space s = true -> lstrip s = [].
Proof.
  unfold all_space. induction s as [|c t IH]; [reflexivity|].
  simpl. destruct (isspace c); [exact IH|discriminate].
Qed.

Lemma strip_all_space (s : str) : all_space s = true -> strip s = [].
Proof. intros H. unfold strip. now rewrite (lstrip_all_space s H). Qed.

Lemma strip_nil_all_space (s : str) : strip s = [] -> all_space s = true.
Proof.
  intros E. destruct (strip_cut s) as [l [r [Es [Hl Hr]]]].
  rewrite E in Es. rewrite Es. unfold all_space in *.
  rewrite forallb_app. simpl. now rewrite Hl, Hr.
Qed.

Lemma truthy_strip (s : str) : truthy (strip s) = negb (all_space s).
Proof.
  destruct (strip s) as [|c t] eqn:E.
  - now rewrite (strip_nil_all_space s E).
  - destruct (all_space s) eqn:H; [|reflexivity].
    rewrite (strip_all_space s H) in E. discriminate.
Qed.

Lemma strip_fixed (s : str) : no_space_at_ends s -> strip s = s.
Proof.
  intros [Hhead Hlast]. destruct s as [|c t]; [reflexivity|].
  unfold strip. simpl lstrip. rewrite (Hhead c t eq_refl).
  unfold rstrip. destruct (rev (c :: t)) as [|d u] eqn:E.
  - apply (f_equal (@rev N)) in E. rewrite rev_involutive in E. discriminate.
  - assert (Es : c :: t = rev u ++ [d]).
    { rewrite <- (rev_involutive (c :: t)), E. reflexivity. }
    simpl lstrip. rewrite (Hlast d (rev u) Es). now rewrite <- E, rev_involutive.
Qed.

(** ** The list fields of the form, further *)

Lemma stripped_lines_not_empty (text : str) :
  Forall (fun s => s <> []) (streamlit_app.stripped_lines text).
Proof.
  unfold streamlit_app.stripped_lines.
  apply Forall_map, Forall_forall. intros s Hs.
  apply filter_In in Hs. destruct Hs as [_ Hs].
  destruct (strip s); discriminate.
Qed.

Lemma stripped_lines_one_line (text : str) :
  Forall one_line (streamlit_app.stripped_lines text).
Proof.
  unfold streamlit_app.stripped_lines.
  apply Forall_map, Forall_forall. intros s Hs.
  apply filter_In in Hs. destruct Hs as [Hs _].
  pose proof (split_pieces_one_line text) as Hall.
  rewrite Forall_forall in Hall. intros Hin. apply (Hall s Hs).
  now apply In_strip.
Qed.

Lemma stripped_lines_trimmed (text : str) :
  Forall no_space_at_ends (streamlit_app.stripped_lines text).
Proof.
  unfold streamlit_app.stripped_lines.
  apply Forall_map, Forall_forall. intros s _. apply strip_no_space_at_ends.
Qed.

Lemma stripped_lines_of_clean_list (xs : list str) :
  Forall one_line xs -> Forall no_space_at_ends xs ->
  Forall (fun s => s <> []) xs ->
  streamlit_app.stripped_lines (join nl xs) = xs.
Proof.
  intros Hline Htrim Hne. destruct xs as [|x rest]; [reflexivity|].
  unfold streamlit_app.stripped_lines.
  change (split 10 (join nl (x :: rest))) with (lines (join nl (x :: rest))).
  rewrite lines_join by (discriminate || assumption).
  clear Hline. induction (x :: rest) as [|y ys IH]; [reflexivity|].
  inversion Htrim as [|? ? Hy Hys]; subst.
  inversion Hne as [|? ? Ny Nys]; subst.
  cbn [List.filter]. rewrite (strip_fixed y Hy).
  destruct y as [|c y']; [contradiction|].
  cbn [truthy List.map]. rewrite (strip_fixed _ Hy).
  f_equal. now apply IH.
Qed.

(** X1.  Reading the list back is a round trip: the lines the form keeps,
    written one per line, are read as the same list. *)
Theorem stripped_lines_round_trip (text : str) :
  streamlit_app.stripped_lines
    (join nl (streamlit_app.stripped_lines text))
  = streamlit_app.stripped_lines text.
Proof.
  apply stripped_lines_of_clean_list.
  - apply stripped_lines_one_line.
  - apply stripped_lines_trimmed.
  - apply stripped_lines_not_empty.
Qed.

(** X2.  Reading two texts put on separate lines gives the lists of the
    two, one after the other. *)
Theorem stripped_lines_of_joined_texts (a b : str) :
  streamlit_app.stripped_lines (a ++ nl ++ b)
  = streamlit_app.stripped_lines a ++ streamlit_app.stripped_lines b.
Proof.
  unfold streamlit_app.stripped_lines, nl. simpl app.
  now rewrite split_app, filter_app, map_app.
Qed.

(** X3.  What the form keeps of a text: exactly the trimmed lines that
    hold a character other than whitespace.  So a text of blank lines only
    gives the empty list. *)
Theorem stripped_lines_keeps_nonblank_lines (text x : str) :
  In x (streamlit_app.stripped_lines text)
  <-> exists l, In l (lines text) /\ all_space l = false /\ x = strip l.
Proof.
  unfold streamlit_app.stripped_lines, lines. rewrite in_map_iff. split.
  - intros [l [E Hl]]. apply filter_In in Hl. destruct Hl as [Hin Ht].
    exists l. rewrite truthy_strip in Ht.
    repeat split; [exact Hin| |now symmetry].
    now destruct (all_space l).
  - intros [l [Hin [Hs E]]]. exists l. split; [now symmetry|].
    apply filter_In. split; [exact Hin|]. rewrite truthy_strip. now rewrite Hs.
Qed.

(** ** The instruction, further *)




(** ** The lines of the plain instruction *)

Lemma one_line_b_sound (s : str) : one_line_b s = true -> one_line s.
Proof.
  unfold one_line_b, one_line. intros H Hin.
  rewrite forallb_forall in H. specialize (H 10 Hin). discriminate.
Qed.

Lemma one_line_app (a b : str) : one_line a -> one_line b -> one_line (a ++ b).
Proof.
  unfold one_line. intros Ha Hb Hin. apply in_app_or in Hin. tauto.
Qed.

Lemma split_length_other (sep c : N) (t : str) :
  (c =? sep) = false ->
  List.length (split sep (c :: t)) = List.length (split sep t).
Proof.
  intros H. simpl. rewrite H.
  destruct (split sep t) as [|l ls] eqn:E; [|reflexivity].
  now destruct (split_not_nil sep t).
Qed.

Lemma split_length_app (sep : N) (a b : str) :
  (List.length (split sep (a ++ b)) + 1
   = List.length (split sep a) + List.length (split sep b))%nat.
Proof.
  induction a as [|c a IH].
  - simpl. lia.
  - destruct (c =? sep) eqn:Hc.
    + simpl. rewrite Hc. simpl. lia.
    + change ((c :: a) ++ b) with (c :: (a ++ b)).
      rewrite !split_length_other by exact Hc. exact IH.
Qed.

(** X5.  The plain instruction is three lines around a prompt of one
    line: the sentence of the engineer, the request in quotes, the cue.  A
    prompt of several lines adds its own line breaks and nothing else: the
    instruction has two lines more than the prompt has. *)
Theorem plain_instruction_lines (p : str) :
  List.length (lines (Grompt.get_rephrased_user_prompt (Some p)))
  = (2 + List.length (lines p))%nat
  /\ (one_line p ->
      lines (Grompt.get_rephrased_user_prompt (Some p))
      = [lit "You are a professional prompt engineer. Optimize this prompt by making it clearer, more concise, and more effective.";
         lit "    User request: " ++ dquote ++ p ++ dquote;
         lit "    Rephrased:"]).
Proof.
  assert (E : lines (Grompt.get_rephrased_user_prompt (Some p))
              = [lit "You are a professional prompt engineer. Optimize this prompt by making it clearer, more concise, and more effective."]
                ++ lines (lit "    User request: " ++ dquote ++ p ++ dquote)
                ++ [lit "    Rephrased:"]).
  { unfold Grompt.get_rephrased_user_prompt, lines. simpl format.
    replace (lit "You are a professional prompt engineer. Optimize this prompt by making it clearer, more concise, and more effective."
             ++ nl ++ lit "    User request: " ++ dquote ++ p ++ dquote
             ++ nl ++ lit "    Rephrased:")
      with (lit "You are a professional prompt engineer. Optimize this prompt by making it clearer, more concise, and more effective."
            ++ 10 :: (lit "    User request: " ++ dquote ++ p ++ dquote)
            ++ 10 :: lit "    Rephrased:")
      by (rewrite <- !app_assoc; reflexivity).
    rewrite !split_app.
    rewrite (split_one_line 10 (lit "You are a professional prompt engineer. Optimize this prompt by making it clearer, more concise, and more effective."))
      by (apply one_line_b_sound; vm_compute; reflexivity).
    rewrite (split_one_line 10 (lit "    Rephrased:"))
      by (apply one_line_b_sound; vm_compute; reflexivity).
    reflexivity. }
  rewrite E. split.
  - assert (L1 : forall x : str, List.length [x] = 1%nat) by reflexivity.
    rewrite !length_app, !L1.
    assert (H1 : (List.length
                    (split 10 (lit "    User request: " ++ dquote ++ p ++ dquote))
                  + 1
                  = 1 + List.length (split 10 (p ++ dquote)))%nat).
    { replace (lit "    User request: " ++ dquote ++ p ++ dquote)
        with ((lit "    User request: " ++ dquote) ++ (p ++ dquote))
        by (rewrite <- app_assoc; reflexivity).
      rewrite split_length_app.
      rewrite (split_one_line 10 (lit "    User request: " ++ dquote))
        by (apply one_line_b_sound; vm_compute; reflexivity).
      reflexivity. }
    assert (H2 : (List.length (split 10 (p ++ dquote)) + 1
                  = List.length (split 10 p) + 1)%nat).
    { rewrite split_length_app.
      rewrite (split_one_line 10 dquote)
        by (apply one_line_b_sound; vm_compute; reflexivity).
      reflexivity. }
    unfold lines. lia.
  - intros Hp. unfold lines at 1.
    rewrite (split_one_line 10 (lit "    User request: " ++ dquote ++ p ++ dquote)).
    + reflexivity.
    + apply one_line_app; [apply one_line_b_sound; vm_compute; reflexivity|].
      apply one_line_app; [apply one_line_b_sound; vm_compute; reflexivity|].
      apply one_line_app; [exact Hp|apply one_line_b_sound; vm_compute; reflexivity].
Qed.

(** ** The client call, for every provider *)

Lemma printed_app (t u : list Run.event) : printed (t ++ u) = printed t ++ printed u.
Proof.
  induction t as [|e t IH]; [reflexivity|].
  destruct e; simpl; now rewrite IH.
Qed.

Lemma constructions_app (t u : list Run.event) :
  constructions (t ++ u) = constructions t ++ constructions u.
Proof.
  induction t as [|e t IH]; [reflexivity|].
  destruct e; simpl; now rewrite IH.
Qed.

(** X6.  Whatever the provider does, one run of [rephrase_prompt]
    constructs the provider once, sends at most one request, which carries
    the instruction and the three settings as given, and leaves the
    environment and the output alone.  If it fails, the failure is an
    [Exception] with the prefix of the wrapper and nothing of another class
    gets out; if it returns, the text has no whitespace at its ends. *)
Theorem rephrase_prompt_one_attempt_one_kind_of_failure
    (cls : pocketgroq.GroqProvider_class) (prompt : option str) (model : str)
    (temperature : Q) (max_tokens : Z)
    (canvas : option prompt_canvas.PromptCanvas) (w : Run.world) :
  let r := Grompt.rephrase_prompt cls prompt model temperature max_tokens
             canvas w in
  Run.environ_GROQ_API_KEY (fst r) = Run.environ_GROQ_API_KEY w
  /\ constructions (Run.trace (fst r))
     = constructions (Run.trace w) ++ [Run.environ_GROQ_API_KEY w]
  /\ (Run.generate_calls (Run.trace (fst r)) = Run.generate_calls (Run.trace w)
      \/ Run.generate_calls (Run.trace (fst r))
         = Run.generate_calls (Run.trace w)
           ++ [pocketgroq.mkRequest (Grompt.craft_system_message canvas prompt)
                 model temperature max_tokens])
  /\ printed (Run.trace (fst r)) = printed (Run.trace w)
  /\ (forall e, snd r = inl e ->
        exists d, e = Exception (lit "Prompt engineering error: " ++ d))
  /\ (forall text, snd r = inr text -> no_space_at_ends text).
Proof.
  cbv zeta. unfold Grompt.rephrase_prompt. rewrite rephrase_prompt_body_run.
  destruct (cls (Run.environ_GROQ_API_KEY w)) as [e|groq].
  - cbn [fst snd Run.trace Run.environ_GROQ_API_KEY].
    rewrite constructions_app, generate_calls_app, printed_app. simpl.
    rewrite !app_nil_r.
    split; [reflexivity|]. split; [reflexivity|]. split; [now left|].
    split; [reflexivity|]. split; [|discriminate].
    intros e' E. injection E as <-. now exists (exn_str e).
  - cbn [fst snd Run.trace Run.environ_GROQ_API_KEY].
    rewrite !constructions_app, !generate_calls_app, !printed_app. simpl.
    rewrite !app_nil_r.
    split; [reflexivity|]. split; [reflexivity|]. split; [now right|].
    split; [reflexivity|]. split.
    + intros e' E.
      destruct (pocketgroq.generate groq _) as [e|text]; [|discriminate].
      injection E as <-. now exists (exn_str e).
    + intros text E.
      destruct (pocketgroq.generate groq _) as [e|response]; [discriminate|].
      injection E as <-. apply strip_no_space_at_ends.
Qed.



(** ** The handler of the button *)

Lemma truthy_true (s : str) : s <> [] -> truthy s = true.
Proof. destruct s; [contradiction|reflexivity]. Qed.

Lemma craft_on_form (f : streamlit_app.Form) (p : option str) :
  streamlit_app.craft_system_message_on (streamlit_app.canvas_of_form f) p
  = inr (Grompt.craft_system_message (Some (form_canvas f)) p).
Proof. reflexivity. Qed.

(** The handler past its two checks, with [Grompt.py] loaded: the call of
    the mode, then the display of a result that is not empty. *)
Lemma on_optimize_calls
    (key : str) (cls : pocketgroq.GroqProvider_class)
    (f : streamlit_app.Form) (w : Run.world) :
  truthy key = true ->
  truthy (streamlit_app.user_prompt f) || truthy (streamlit_app.canvas_prompt f)
  = true ->
  streamlit_app.on_optimize key (inr cls) f w
  = match Grompt.rephrase_prompt_body cls (inr (form_instruction f))
            (streamlit_app.f_model f) (streamlit_app.f_temperature f)
            (streamlit_app.f_max_tokens f)
            (Run.mkWorld (Some key) (Run.trace w)) with
    | (w', inl e) => (w', inl e)
    | (w', inr text) =>
        if truthy text then
          (Run.mkWorld (Run.environ_GROQ_API_KEY w')
             ((Run.trace w' ++ [Run.EvStSubheader (lit "Optimized Prompt:")])
              ++ [Run.EvStWrite text]),
           inr tt)
        else (w', inr tt)
    end.
Proof.
  intros Hkey Hprompt. unfold streamlit_app.on_optimize.
  rewrite Hkey, Hprompt. cbn [negb].
  unfold form_instruction, streamlit_app.rephrase_prompt_on,
    Grompt.rephrase_prompt.
  rewrite craft_on_form.
  destruct (truthy (streamlit_app.canvas_prompt f));
    unfold Run.bind, Run.try_except, Run.setenv_GROQ_API_KEY, Run.lift;
    match goal with
    | |- context [Grompt.rephrase_prompt_body ?c ?t ?m ?tp ?mt ?w0] =>
        destruct (Grompt.rephrase_prompt_body c t m tp mt w0) as [w' [e|text]];
        [reflexivity|destruct (truthy text); reflexivity]
    end.
Qed.

(** X8.  A press of the button with a credential and a prompt, when the
    provider answers with a text that is not blank: the credential of the
    form is put into the environment and is the one the constructor finds,
    whatever the environment held; one request goes out with the
    instruction of the mode and the settings of the form; the heading and
    the trimmed answer are shown. *)
Theorem handler_shows_trimmed_answer
    (key : str) (cls : pocketgroq.GroqProvider_class)
    (groq : pocketgroq.GroqProvider) (text : str)
    (f : streamlit_app.Form) (w : Run.world) :
  key <> [] ->
  streamlit_app.user_prompt f <> [] \/ streamlit_app.canvas_prompt f <> [] ->
  cls (Some key) = inr groq ->
  pocketgroq.generate groq (form_request f) = inr text ->
  all_space text = false ->
  streamlit_app.on_optimize key (inr cls) f w
  = (Run.mkWorld (Some key)
       (Run.trace w
        ++ [Run.EvNewProvider (Some key);
            Run.EvGenerate (form_request f);
            Run.EvStSubheader (lit "Optimized Prompt:");
            Run.EvStWrite (strip text)]),
     inr tt).
Proof.
  intros Hkey Hprompt Hcls Hgen Hspace.
  rewrite on_optimize_calls.
  - rewrite rephrase_prompt_body_run.
    cbn [Run.environ_GROQ_API_KEY Run.trace]. rewrite Hcls.
    unfold form_request in Hgen. rewrite Hgen.
    rewrite truthy_strip, Hspace. cbn [negb Run.environ_GROQ_API_KEY Run.trace].
    now rewrite <- !app_assoc.
  - now apply truthy_true.
  - destruct Hprompt as [H|H]; rewrite (truthy_true _ H);
      [reflexivity|apply orb_true_r].
Qed.

(** X9.  When the answer of the provider is blank (empty or whitespace
    only) the handler shows nothing at all, neither a result nor a message,
    and ends normally. *)
Theorem handler_shows_nothing_for_blank_answer
    (key : str) (cls : pocketgroq.GroqProvider_class)
    (groq : pocketgroq.GroqProvider) (text : str)
    (f : streamlit_app.Form) (w : Run.world) :
  key <> [] ->
  streamlit_app.user_prompt f <> [] \/ streamlit_app.canvas_prompt f <> [] ->
  cls (Some key) = inr groq ->
  pocketgroq.generate groq (form_request f) = inr text ->
  all_space text = true ->
  streamlit_app.on_optimize key (inr cls) f w
  = (Run.mkWorld (Some key)
       (Run.trace w
        ++ [Run.EvNewProvider (Some key); Run.EvGenerate (form_request f)]),
     inr tt)
  /\ shown (Run.trace (fst (streamlit_app.on_optimize key (inr cls) f w)))
     = shown (Run.trace w).
Proof.
  intros Hkey Hprompt Hcls Hgen Hspace.
  assert (E : streamlit_app.on_optimize key (inr cls) f w
              = (Run.mkWorld (Some key)
                   (Run.trace w
                    ++ [Run.EvNewProvider (Some key);
                        Run.EvGenerate (form_request f)]),
                 inr tt)).
  { rewrite on_optimize_calls.
    - rewrite rephrase_prompt_body_run.
      cbn [Run.environ_GROQ_API_KEY Run.trace]. rewrite Hcls.
      unfold form_request in Hgen. rewrite Hgen.
      rewrite truthy_strip, Hspace. cbn [negb].
      now rewrite <- !app_assoc.
    - now apply truthy_true.
    - destruct Hprompt as [H|H]; rewrite (truthy_true _ H);
        [reflexivity|apply orb_true_r]. }
  split; [exact E|]. rewrite E. cbn [fst Run.trace].
  unfold shown. rewrite filter_app. simpl. now rewrite app_nil_r.
Qed.

(** X10.  The handler catches nothing of the call: when the provider's
    call raises, the wrapped exception leaves the handler as it is, after
    the one request, and the handler itself shows no message. *)
Theorem handler_lets_the_wrapped_error_through
    (key : str) (cls : pocketgroq.GroqProvider_class)
    (groq : pocketgroq.GroqProvider) (e : exn)
    (f : streamlit_app.Form) (w : Run.world) :
  key <> [] ->
  streamlit_app.user_prompt f <> [] \/ streamlit_app.canvas_prompt f <> [] ->
  cls (Some key) = inr groq ->
  pocketgroq.generate groq (form_request f) = inl e ->
  streamlit_app.on_optimize key (inr cls) f w
  = (Run.mkWorld (Some key)
       (Run.trace w
        ++ [Run.EvNewProvider (Some key); Run.EvGenerate (form_request f)]),
     inl (Exception (lit "Prompt engineering error: " ++ exn_str e)))
  /\ shown (Run.trace (fst (streamlit_app.on_optimize key (inr cls) f w)))
     = shown (Run.trace w).
Proof.
  intros Hkey Hprompt Hcls Hgen.
  assert (E : streamlit_app.on_optimize key (inr cls) f w
              = (Run.mkWorld (Some key)
                   (Run.trace w
                    ++ [Run.EvNewProvider (Some key);
                        Run.EvGenerate (form_request f)]),
                 inl (Exception (lit "Prompt engineering error: " ++ exn_str e)))).
  { rewrite on_optimize_calls.
    - rewrite rephrase_prompt_body_run.
      cbn [Run.environ_GROQ_API_KEY Run.trace]. rewrite Hcls.
      unfold form_request in Hgen. rewrite Hgen.
      now rewrite <- !app_assoc.
    - now apply truthy_true.
    - destruct Hprompt as [H|H]; rewrite (truthy_true _ H);
        [reflexivity|apply orb_true_r]. }
  split; [exact E|]. rewrite E. cbn [fst Run.trace].
  unfold shown. rewrite filter_app. simpl. now rewrite app_nil_r.
Qed.

Lemma on_optimize_import_fails
    (key : str) (e : exn) (f : streamlit_app.Form) (w : Run.world) :
  truthy key = true ->
  truthy (streamlit_app.user_prompt f) || truthy (streamlit_app.canvas_prompt f)
  = true ->
  streamlit_app.on_optimize key (inl e) f w
  = (Run.mkWorld (Some key)
       (Run.trace w
        ++ [Run.EvStError (lit "Unable to import 'Grompt': " ++ exn_str e);
            Run.EvStStop]),
     inl (mkExn "StopException" [])).
Proof.
  intros Hkey Hp. unfold streamlit_app.on_optimize.
  rewrite Hkey, Hp. cbn [negb].
  unfold Run.bind, Run.try_except, Run.setenv_GROQ_API_KEY, Run.lift,
    streamlit_app.st_stop, Run.bind, Run.emit, Run.raise.
  cbn [Run.environ_GROQ_API_KEY Run.trace].
  now rewrite <- !app_assoc.
Qed.

(** X11.  When [Grompt.py] cannot be loaded the handler shows "Unable to
    import 'Grompt': " with the description and stops the script: no
    provider is constructed and no request is made, but the credential is
    in the environment already. *)
Theorem handler_stops_when_import_fails
    (key : str) (e : exn) (f : streamlit_app.Form) (w : Run.world) :
  key <> [] ->
  streamlit_app.user_prompt f <> [] \/ streamlit_app.canvas_prompt f <> [] ->
  streamlit_app.on_optimize key (inl e) f w
  = (Run.mkWorld (Some key)
       (Run.trace w
        ++ [Run.EvStError (lit "Unable to import 'Grompt': " ++ exn_str e);
            Run.EvStStop]),
     inl (mkExn "StopException" [])).
Proof.
  intros Hkey Hprompt. apply on_optimize_import_fails.
  - now apply truthy_true.
  - destruct Hprompt as [H|H]; rewrite (truthy_true _ H);
      [reflexivity|apply orb_true_r].
Qed.

(** X12.  With a credential but both prompt fields empty the handler only
    warns: whatever the eight fields of the canvas hold, nothing is sent,
    no provider is constructed and the environment is not touched. *)
Theorem handler_warns_without_prompt
    (key : str) (import_Grompt : result pocketgroq.GroqProvider_class)
    (f : streamlit_app.Form) (w : Run.world) :
  key <> [] ->
  streamlit_app.user_prompt f = [] ->
  streamlit_app.canvas_prompt f = [] ->
  streamlit_app.on_optimize key import_Grompt f w
  = (Run.mkWorld (Run.environ_GROQ_API_KEY w)
       (Run.trace w
        ++ [Run.EvStWarning (lit "Please enter a prompt to optimize.")]),
     inr tt).
Proof.
  intros Hkey Hu Hc. unfold streamlit_app.on_optimize.
  rewrite (truthy_true _ Hkey), Hu, Hc. reflexivity.
Qed.

(** X13.  In advanced mode the texts of the two prompt fields are not
    used: "Your Prompt" only switches the mode.  Two presses that differ
    in these texts alone, both with "Your Prompt" filled in, run alike. *)
Theorem advanced_mode_ignores_the_prompt_texts
    (key : str) (import_Grompt : result pocketgroq.GroqProvider_class)
    (f : streamlit_app.Form) (user1 canvas1 user2 canvas2 : str)
    (w : Run.world) :
  canvas1 <> [] -> canvas2 <> [] ->
  streamlit_app.on_optimize key import_Grompt (with_prompts user1 canvas1 f) w
  = streamlit_app.on_optimize key import_Grompt (with_prompts user2 canvas2 f) w.
Proof.
  intros H1 H2.
  destruct canvas1 as [|a1 c1]; [contradiction|].
  destruct canvas2 as [|a2 c2]; [contradiction|].
  unfold streamlit_app.on_optimize, with_prompts.
  cbn [streamlit_app.user_prompt streamlit_app.canvas_prompt truthy].
  rewrite !orb_true_r. reflexivity.
Qed.


(** X15.  An instance of the form's class with [None] in [steps] or in
    [references] never reaches the provider's call: [rephrase_prompt]
    constructs the provider, the template raises, and the caller gets the
    wrapped error without a request having been made. *)
Theorem canvas_with_None_list_makes_no_request
    (cls : pocketgroq.GroqProvider_class) (prompt : option str) (model : str)
    (temperature : Q) (max_tokens : Z) (c : streamlit_app.PromptCanvas)
    (w : Run.world) :
  streamlit_app.steps c = None \/ streamlit_app.references c = None ->
  (exists d,
     snd (streamlit_app.rephrase_prompt_on cls prompt model temperature
            max_tokens c w)
     = inl (Exception (lit "Prompt engineering error: " ++ d)))
  /\ Run.generate_calls
       (Run.trace
          (fst (streamlit_app.rephrase_prompt_on cls prompt model temperature
                  max_tokens c w)))
     = Run.generate_calls (Run.trace w)
  /\ constructions
       (Run.trace
          (fst (streamlit_app.rephrase_prompt_on cls prompt model temperature
                  max_tokens c w)))
     = constructions (Run.trace w) ++ [Run.environ_GROQ_API_KEY w].
Proof.
  intros Hnone.
  assert (Hread : exists e, streamlit_app.craft_system_message_on c prompt = inl e).
  { unfold streamlit_app.craft_system_message_on, streamlit_app.read_attributes.
    destruct Hnone as [H|H].
    - rewrite H. eauto.
    - rewrite H. destruct (streamlit_app.steps c); eauto. }
  destruct Hread as [e He].
  unfold streamlit_app.rephrase_prompt_on.
  rewrite rephrase_prompt_body_run, He.
  destruct (cls (Run.environ_GROQ_API_KEY w)) as [e'|groq];
    cbn [fst snd Run.trace];
    rewrite generate_calls_app, constructions_app; simpl; rewrite !app_nil_r;
    (split; [eexists; reflexivity|]); split; reflexivity.
Qed.


(** ** Instances *)

(** X5 at the prompt "write a poem". *)
Lemma plain_instruction_lines_poem :
  lines (Grompt.get_rephrased_user_prompt (Some (lit "write a poem")))
  = [lit "You are a professional prompt engineer. Optimize this prompt by making it clearer, more concise, and more effective.";
     lit "    User request: " ++ dquote ++ lit "write a poem" ++ dquote;
     lit "    Rephrased:"].
Proof.
  apply (proj2 (plain_instruction_lines (lit "write a poem"))).
  apply one_line_b_sound. vm_compute. reflexivity.
Defined.

(** X8 in basic mode: the environment held no credential before. *)
Lemma handler_shows_hi :
  streamlit_app.on_optimize (lit "gsk")
    (inr (keyed_class (answering (lit "  hi  ")))) poem_form (Run.start None)
  = (Run.mkWorld (Some (lit "gsk"))
       (Run.trace (Run.start None)
        ++ [Run.EvNewProvider (Some (lit "gsk"));
            Run.EvGenerate (form_request poem_form);
            Run.EvStSubheader (lit "Optimized Prompt:");
            Run.EvStWrite (lit "hi")]),
     inr tt).
Proof.
  apply (handler_shows_trimmed_answer (lit "gsk")
           (keyed_class (answering (lit "  hi  ")))
           (answering (lit "  hi  ")) (lit "  hi  ") poem_form
           (Run.start None)).
  - discriminate.
  - left. discriminate.
  - reflexivity.
  - reflexivity.
  - reflexivity.
Defined.

(** X9 for an answer of three spaces. *)
Lemma handler_shows_nothing_for_spaces :
  streamlit_app.on_optimize (lit "gsk")
    (inr (keyed_class (answering (lit "   ")))) poem_form (Run.start None)
  = (Run.mkWorld (Some (lit "gsk"))
       (Run.trace (Run.start None)
        ++ [Run.EvNewProvider (Some (lit "gsk"));
            Run.EvGenerate (form_request poem_form)]),
     inr tt).
Proof.
  apply (proj1 (handler_shows_nothing_for_blank_answer (lit "gsk")
                  (keyed_class (answering (lit "   ")))
                  (answering (lit "   ")) (lit "   ") poem_form
                  (Run.start None)
                  ltac:(discriminate) ltac:(left; discriminate)
                  eq_refl eq_refl eq_refl)).
Defined.

(** X10 for a provider that raises "rate limit". *)
Lemma handler_lets_rate_limit_through :
  streamlit_app.on_optimize (lit "gsk")
    (inr (keyed_class (failing (mkExn "RateLimitError" (lit "rate limit")))))
    poem_form (Run.start None)
  = (Run.mkWorld (Some (lit "gsk"))
       (Run.trace (Run.start None)
        ++ [Run.EvNewProvider (Some (lit "gsk"));
            Run.EvGenerate (form_request poem_form)]),
     inl (Exception (lit "Prompt engineering error: rate limit"))).
Proof.
  apply (proj1 (handler_lets_the_wrapped_error_through (lit "gsk")
                  (keyed_class (failing (mkExn "RateLimitError" (lit "rate limit"))))
                  (failing (mkExn "RateLimitError" (lit "rate limit")))
                  (mkExn "RateLimitError" (lit "rate limit")) poem_form
                  (Run.start None)
                  ltac:(discriminate) ltac:(left; discriminate)
                  eq_refl eq_refl)).
Defined.

(** X11 when the provider library is not installed. *)
Lemma handler_stops_without_pocketgroq :
  streamlit_app.on_optimize (lit "gsk")
    (inl (mkExn "ModuleNotFoundError" (lit "No module named 'pocketgroq'")))
    poem_form (Run.start None)
  = (Run.mkWorld (Some (lit "gsk"))
       (Run.trace (Run.start None)
        ++ [Run.EvStError
              (lit "Unable to import 'Grompt': No module named 'pocketgroq'");
            Run.EvStStop]),
     inl (mkExn "StopException" [])).
Proof.
  apply (handler_stops_when_import_fails (lit "gsk")
           (mkExn "ModuleNotFoundError" (lit "No module named 'pocketgroq'"))
           poem_form (Run.start None)).
  - discriminate.
  - left. discriminate.
Defined.

(** X12 for a canvas that is filled in while "Your Prompt" is empty. *)
Lemma handler_warns_for_canvas_without_prompt :
  streamlit_app.on_optimize (lit "gsk")
    (inr (keyed_class (answering (lit "ok"))))
    (with_prompts [] [] essay_form) (Run.start None)
  = (Run.mkWorld None
       (Run.trace (Run.start None)
        ++ [Run.EvStWarning (lit "Please enter a prompt to optimize.")]),
     inr tt).
Proof.
  apply (handler_warns_without_prompt (lit "gsk")
           (inr (keyed_class (answering (lit "ok"))))
           (with_prompts [] [] essay_form) (Run.start None)).
  - discriminate.
  - reflexivity.
  - reflexivity.
Defined.

(** X13 for two texts of "Your Prompt". *)
Lemma advanced_mode_ignores_go_and_stop :
  streamlit_app.on_optimize (lit "gsk")
    (inr (keyed_class (answering (lit "ok"))))
    (with_prompts [] (lit "go") essay_form) (Run.start None)
  = streamlit_app.on_optimize (lit "gsk")
      (inr (keyed_class (answering (lit "ok"))))
      (with_prompts (lit "a haiku") (lit "stop") essay_form) (Run.start None).
Proof.
  apply (advanced_mode_ignores_the_prompt_texts (lit "gsk")
           (inr (keyed_class (answering (lit "ok")))) essay_form
           [] (lit "go") (lit "a haiku") (lit "stop") (Run.start None)).
  - discriminate.
  - discriminate.
Defined.


(** X15 for the instance without any field supplied. *)
Lemma default_canvas_makes_no_request :
  Run.generate_calls
    (Run.trace
       (fst (streamlit_app.rephrase_prompt_on
               (keyed_class (answering (lit "ok"))) None
               (lit "llama-3.3-70b-versatile") (1 # 2)%Q 1024%Z
               PromptCanvas_default (Run.start (Some (lit "gsk"))))))
  = Run.generate_calls (Run.trace (Run.start (Some (lit "gsk")))).
Proof.
  apply (proj1 (proj2 (canvas_with_None_list_makes_no_request
                         (keyed_class (answering (lit "ok"))) None
                         (lit "llama-3.3-70b-versatile") (1 # 2)%Q 1024%Z
                         PromptCanvas_default
                         (Run.start (Some (lit "gsk")))
                         (or_introl eq_refl)))).
Defined.
